(** * zeoran: the CIF structure writer ([output.cpp], [global.h], [globals.cpp])

    A shallow embedding of [print_structure] and of the parts of the C and
    C++ libraries it calls, followed by the properties of the writer. *)

From Stdlib Require Import ZArith String Ascii List Lia DecimalString DecimalPos.
From Stdlib Require Import Floats.PrimFloat Floats.SpecFloat Floats.FloatOps.
From stdpp Require Import base option list strings gmap.

Local Open Scope Z_scope.
#[local] Set Warnings "-inexact-float".

(** ** Strings *)

(** The line feed that [endl] writes. *)
Definition nl : string := String "010"%char EmptyString.

Fixpoint spaces (n : nat) : string :=
  match n with
  | O => EmptyString
  | S n' => String " "%char (spaces n')
  end.

(** Field-width padding of a formatted insertion: the stream's fill
    character is the space and no adjustment flag is ever set, so the padding
    goes in front of the text. *)
Definition pad_left (w : nat) (s : string) : string :=
  spaces (w - String.length s) +:+ s.

(** ** Numbers as text *)

(** [std::to_string(int)], and [operator<<(int)] under the default flags:
    the decimal digits, with a minus sign for a negative value. *)
Definition to_string (n : Z) : string :=
  match n with
  | Z0 => "0"
  | Zpos p => NilZero.string_of_uint (Pos.to_uint p)
  | Zneg p => "-" +:+ NilZero.string_of_uint (Pos.to_uint p)
  end.

Definition digit (d : Z) : ascii := ascii_of_N (48 + Z.to_N d).

(** The [k] low-order decimal digits of [n], most significant first. *)
Fixpoint low_digits (k : nat) (n : Z) : string :=
  match k with
  | O => EmptyString
  | S k' => low_digits k' (n / 10) +:+ String (digit (n mod 10)) EmptyString
  end.

(** [m * 2^e] rounded to the nearest integer, ties to the even one: the
    rounding [printf] applies to the exact value of a double. *)
Definition round_even (m e : Z) : Z :=
  if 0 <=? e then m * 2 ^ e
  else
    let d := 2 ^ (- e) in
    let q := m / d in
    match 2 * (m mod d) ?= d with
    | Lt => q
    | Gt => q + 1
    | Eq => if Z.even q then q else q + 1
    end.

(** The text of [n / 10^p] with [p] fractional digits; no point is written
    when [p] is zero. *)
Definition fixed_of_scaled (p : nat) (n : Z) : string :=
  to_string (n / 10 ^ Z.of_nat p) +:+
  match p with
  | O => EmptyString
  | S _ => "." +:+ low_digits p (n mod 10 ^ Z.of_nat p)
  end.

Definition sign_text (s : bool) : string :=
  if s then "-" else EmptyString.

(** A double in fixed notation with precision [p] (the conversion [%.pf]).
    A C++ [double] is a binary64 value, here a primitive float.  The sign of
    a NaN is not visible in a primitive float; it is rendered without one. *)
Definition render_fixed (p : nat) (d : float) : string :=
  match Prim2SF d with
  | S754_nan => "nan"
  | S754_infinity s => sign_text s +:+ "inf"
  | S754_zero s => sign_text s +:+ fixed_of_scaled p 0
  | S754_finite s m e =>
      sign_text s +:+ fixed_of_scaled p (round_even (Zpos m * 10 ^ Z.of_nat p) e)
  end.

Definition is_finite (d : float) : bool :=
  match Prim2SF d with
  | S754_zero _ | S754_finite _ _ _ => true
  | S754_infinity _ | S754_nan => false
  end.

(** Recognisers for the shape "optional minus, one or more digits, a point,
    exactly three digits". *)
Definition is_digit (c : ascii) : bool :=
  ((48 <=? N_of_ascii c) && (N_of_ascii c <=? 57))%N.

Fixpoint all_digits (s : string) : bool :=
  match s with
  | EmptyString => true
  | String c s' => is_digit c && all_digits s'
  end.

Fixpoint digits_point_3 (seen : bool) (s : string) : bool :=
  match s with
  | EmptyString => false
  | String c s' =>
      if Ascii.eqb c "."%char
      then seen && (String.length s' =? 3)%nat && all_digits s'
      else is_digit c && digits_point_3 true s'
  end.

Definition has_3_fraction_digits (s : string) : bool :=
  match s with
  | EmptyString => false
  | String c s' =>
      if Ascii.eqb c "-"%char then digits_point_3 false s'
      else digits_point_3 false s
  end.

(** ** Output streams *)

Inductive floatfield : Type := ff_none | ff_fixed | ff_scientific.

(** The part of a [std::ostream] the writer touches: the characters written
    so far and the formatting state. *)
Record ios : Type := Ios {
  buf : string;
  precision : nat;
  ffield : floatfield;
  width : nat
}.

(** A freshly constructed stream. *)
Definition ios_init : ios :=
  {| buf := EmptyString; precision := 6; ffield := ff_none; width := 0 |}.

(** What can go wrong below the level of the writer's own error path. *)
Inductive fault : Type :=
  | out_of_bounds        (* a read past the end of the atom array *)
  | unmodelled_notation. (* a double inserted in a notation other than fixed *)

Inductive result (A : Type) : Type :=
  | Ok (a : A)
  | Fault (f : fault).
Arguments Ok {A} a.
Arguments Fault {A} f.

(** Stream computations: state passing over [ios], with faults. *)
Definition M (A : Type) : Type := ios -> result (A * ios).

Global Instance M_ret : MRet M := fun A a st => Ok (a, st).
Global Instance M_bind : MBind M := fun A B f c st =>
  match c st with
  | Ok (a, st') => f a st'
  | Fault e => Fault e
  end.

Definition fail {A : Type} (e : fault) : M A := fun _ => Fault e.

(** A formatted insertion of the text [s]: padded to the pending field
    width, which is then reset. *)
Definition emit (s : string) : M unit := fun st =>
  Ok (tt, {| buf := buf st +:+ pad_left (width st) s;
             precision := precision st; ffield := ffield st; width := 0 |}).

(** [os << s] for a C string or a [std::string]. *)
Definition put_str (s : string) : M unit := emit s.

(** [os << n] for an [int]. *)
Definition put_int (n : Z) : M unit := emit (to_string n).

(** [os << d] for a [double]. *)
Definition put_double (d : float) : M unit := fun st =>
  match ffield st with
  | ff_fixed => emit (render_fixed (precision st) d) st
  | _ => Fault unmodelled_notation
  end.

(** [os << setw(n)]. *)
Definition setw (n : nat) : M unit := fun st =>
  Ok (tt, {| buf := buf st; precision := precision st;
             ffield := ffield st; width := n |}).

(** [os << setprecision(n)]. *)
Definition setprecision (n : nat) : M unit := fun st =>
  Ok (tt, {| buf := buf st; precision := n;
             ffield := ffield st; width := width st |}).

(** [os << fixed]. *)
Definition fixed : M unit := fun st =>
  Ok (tt, {| buf := buf st; precision := precision st;
             ffield := ff_fixed; width := width st |}).

(** [os << endl]: an unformatted line feed (and a flush). *)
Definition endl : M unit := fun st =>
  Ok (tt, {| buf := buf st +:+ nl; precision := precision st;
             ffield := ffield st; width := width st |}).

(** ** Data model ([global.h], [globals.cpp]) *)

(** An atom record.  The two [char[5]] arrays are taken as the C strings they
    hold; [at_] is the source's field [at]. *)
Record atom : Type := Atom {
  id : string;
  at_ : string;
  x : float;
  y : float;
  z : float;
  q : float
}.

(** The process-wide variables. *)
Record globals : Type := Globals {
  Natoms : Z;
  Tatoms : Z;
  a : float;
  b : float;
  c : float;
  alpha : float;
  beta : float;
  gama : float;
  setting : string;
  Neqsteps : Z;
  Nvisits : Z
}.

(** Their values at process start ([globals.cpp]): static storage is
    zero-initialised unless an initialiser is given. *)
Definition globals_init : globals :=
  {| Natoms := 0; Tatoms := 0; a := 0; b := 0; c := 0;
     alpha := 0; beta := 0; gama := 0; setting := EmptyString;
     Neqsteps := 100; Nvisits := 20 |}.

(** ** The process environment *)

Record world : Type := World {
  files : gmap string string;     (* the files, by path, with their content *)
  can_open : string -> bool;      (* does opening this path for writing succeed *)
  cerr : ios;                     (* the diagnostic stream *)
  environ : gmap string string;   (* the environment variables *)
  local_date : string             (* strftime %Y-%m-%d of localtime(time()) *)
}.

Definition getenv (w : world) (name : string) : option string :=
  environ w !! name.

(** How a call ends: it returns, the process exits, or the behaviour is
    undefined. *)
Inductive outcome : Type :=
  | Returned (w : world)
  | Exited (status : Z) (w : world)
  | Undefined (f : fault).

(** ** The writer ([output.cpp]) *)

(** Lines 92 and 95: a row from the atom's own fields. *)
Definition put_own_row (p : atom) : M unit :=
  put_str (at_ p);; setw 10;; put_str (id p);;
  setw 10;; put_double (x p);; setw 10;; put_double (y p);;
  setw 10;; put_double (z p);; setw 10;; put_double (q p);; endl.

(** Line 85: the aluminium row. *)
Definition put_Al_row (alcount : Z) (p : atom) : M unit :=
  put_str "Al";; put_int alcount;; put_str "        Al     ";;
  put_double (x p);; setw 10;; put_double (y p);;
  setw 10;; put_double (z p);; setw 10;; put_double (q p);; endl.

(** Lines 82-89: the scan of [Als] for one Si atom; [rest] is [Als] from
    index [j] on.  Returns [ctl] and [alcount]. *)
Fixpoint scan_Als (rest : list Z) (Tat : Z) (p : atom) (ctl alcount : Z)
  : M (Z * Z) :=
  match rest with
  | [] => mret (ctl, alcount)
  | Alj :: rest' =>
      if ctl =? 1 then
        if Tat =? Alj then
          put_Al_row alcount p;;
          scan_Als rest' Tat p 0 (alcount + 1)
        else scan_Als rest' Tat p ctl alcount
      else mret (ctl, alcount)
  end.

(** Lines 78-97: the loop over the atom array, from index [i], with
    [n = Natoms - i] iterations left.  Returns [Tat] and [alcount]. *)
Fixpoint atoms_loop (n : nat) (atoms : list atom) (Als : list Z)
    (i Tat alcount : Z) : M (Z * Z) :=
  match n with
  | O => mret (Tat, alcount)
  | S n' =>
      match atoms !! Z.to_nat i with
      | None => fail out_of_bounds
      | Some p =>
          if String.eqb (id p) "Si" then
            let Tat := Tat + 1 in
            '(ctl, alcount) ← scan_Als Als Tat p 1 alcount;
            (if ctl =? 1 then put_own_row p else mret tt);;
            atoms_loop n' atoms Als (i + 1) Tat alcount
          else
            put_own_row p;;
            atoms_loop n' atoms Als (i + 1) Tat alcount
      end
  end.

(** Lines 27-97: everything written to [fout]. *)
Definition write_cif (g : globals) (atoms : list atom) (Als : list Z)
    (name_zeo date_buffer username : string) : M (Z * Z) :=
  setprecision 3;; fixed;;
  put_str "data_";; put_str name_zeo;; endl;; endl;;
  put_str "_audit_creation_method RASPA-1.0";; endl;;
  put_str "_audit_creation_date ";; put_str date_buffer;; endl;;
  put_str "_audit_author_name '";; put_str username;; put_str "'";; endl;; endl;;
  put_str "_cell_length_a    ";; put_double (a g);; endl;;
  put_str "_cell_length_b    ";; put_double (b g);; endl;;
  put_str "_cell_length_c    ";; put_double (c g);; endl;;
  put_str "_cell_angle_alpha ";; put_double (alpha g);; endl;;
  put_str "_cell_angle_beta  ";; put_double (beta g);; endl;;
  put_str "_cell_angle_gamma ";; put_double (gama g);; endl;;
  put_str "_cell_volume      ";; put_double (a g * b g * c g)%float;; endl;; endl;;
  put_str "_symmetry_cell_setting          ";; put_str (setting g);; endl;;
  put_str "_symmetry_space_group_name_Hall 'P 1'";; endl;;
  put_str "_symmetry_space_group_name_H-M  'P 1'";; endl;;
  put_str "_symmetry_Int_Tables_number     1";; endl;;
  put_str "_symmetry_equiv_pos_as_xyz 'x,y,z'";; endl;; endl;;
  put_str "loop_";; endl;;
  put_str "_atom_site_label";; endl;;
  put_str "_atom_site_type_symbol";; endl;;
  put_str "_atom_site_fract_x";; endl;;
  put_str "_atom_site_fract_y";; endl;;
  put_str "_atom_site_fract_z";; endl;;
  put_str "_atom_site_charge";; endl;;
  atoms_loop (Z.to_nat (Natoms g)) atoms Als 0 (-1) 1.

(** Lines 38-44: the user name. *)
Definition lookup_username (w : world) : string :=
  match getenv w "USER" with
  | Some u => u
  | None =>
      match getenv w "USERNAME" with
      | Some u => u
      | None => "unknown_user"
      end
  end.

(** Line 23: the diagnostic. *)
Definition open_diagnostic (fname : string) : M unit :=
  put_str "unable to open file ";; put_str fname;;
  put_str " for writing";; endl.

Definition set_cerr (w : world) (e : ios) : world :=
  {| files := files w; can_open := can_open w; cerr := e;
     environ := environ w; local_date := local_date w |}.

Definition set_file (w : world) (path content : string) : world :=
  {| files := <[path := content]> (files w); can_open := can_open w;
     cerr := cerr w; environ := environ w; local_date := local_date w |}.

(** Line 19. *)
Definition file_name (struc : Z) (name_zeo name_alg out_name : string) : string :=
  out_name +:+ "/" +:+ name_zeo +:+ "_" +:+ name_alg +:+ "_"
    +:+ to_string struc +:+ ".cif".

(** Lines 13-101.  The source's array parameter [list] is [atoms] here.  The
    file is truncated when opened and holds what was written when closed. *)
Definition print_structure (g : globals) (atoms : list atom) (Als : list Z)
    (struc : Z) (name_zeo name_alg out_name : string) (w : world) : outcome :=
  let fname := file_name struc name_zeo name_alg out_name in
  if can_open w fname then
    match write_cif g atoms Als name_zeo (local_date w) (lookup_username w)
            ios_init with
    | Ok (_, fout) => Returned (set_file w fname (buf fout))
    | Fault f => Undefined f
    end
  else
    match open_diagnostic fname (cerr w) with
    | Ok (_, e) => Exited 1 (set_cerr w e)
    | Fault f => Undefined f
    end.

(** The file a call leaves at [path], when it returns. *)
Definition written (o : outcome) (path : string) : option string :=
  match o with
  | Returned w => files w !! path
  | _ => None
  end.

Module Demo.

Definition cell : globals :=
  {| Natoms := 3; Tatoms := 2; a := 10; b := 20; c := 30.5;
     alpha := 90; beta := 90; gama := 120; setting := "triclinic";
     Neqsteps := 100; Nvisits := 20 |}.

Definition atoms : list atom :=
  [ Atom "Si" "T1" 0.1 0.2 0.3 1.2;
    Atom "O" "O1" 0.4 0.5 0.6 (-0.8);
    Atom "Si" "T2" 0.7 0.8 0.9 1.2 ]%float.

Definition w0 : world :=
  {| files := ∅; can_open := fun path => negb (String.prefix "/missing/" path);
     cerr := ios_init; environ := {[ "USER" := "alice" ]};
     local_date := "2024-01-15" |}.

(** The same world with neither USER nor USERNAME. *)
Definition w_anonymous : world :=
  {| files := ∅; can_open := fun path => negb (String.prefix "/missing/" path);
     cerr := ios_init; environ := ∅; local_date := "2024-01-15" |}.

(** The same world a day later. *)
Definition w_next_day : world :=
  {| files := ∅; can_open := fun path => negb (String.prefix "/missing/" path);
     cerr := ios_init; environ := {[ "USER" := "alice" ]};
     local_date := "2024-01-16" |}.

Definition cell5 : globals :=
  {| Natoms := 5; Tatoms := 3; a := 10; b := 20; c := 30.5;
     alpha := 90; beta := 90; gama := 120; setting := "triclinic";
     Neqsteps := 100; Nvisits := 20 |}.

Definition atoms5 : list atom :=
  [ Atom "Si" "T1" 0.1 0.2 0.3 1.2;
    Atom "O" "O1" 0.4 0.5 0.6 (-0.8);
    Atom "Si" "T2" 0.7 0.8 0.9 1.2;
    Atom "Si" "T3" 0.25 0.75 0.5 1.2;
    Atom "O" "O2" 0.15 0.35 0.45 (-0.8) ]%float.

(** Finite cell lengths whose product overflows. *)
Definition huge_cell : globals :=
  {| Natoms := 0; Tatoms := 0; a := 1e200; b := 1e200; c := 1;
     alpha := 90; beta := 90; gama := 90; setting := "cubic";
     Neqsteps := 100; Nvisits := 20 |}.

End Demo.

(** ** The text of the document, in closed form

    These functions describe the file; they are related to the writer by
    [write_cif_text] below.  [r] is the rendering of a double. *)

Section Text.

Variable r : float -> string.

(** The part of a row after the x coordinate. *)
Definition row_tail (p : atom) : string :=
  pad_left 10 (r (y p)) +:+ pad_left 10 (r (z p)) +:+ pad_left 10 (r (q p)) +:+ nl.

(** A row from the atom's own [at] and [id]. *)
Definition own_row (p : atom) : string :=
  at_ p +:+ pad_left 10 (id p) +:+ pad_left 10 (r (x p)) +:+ row_tail p.

(** An aluminium row with number [n]. *)
Definition Al_row (n : Z) (p : atom) : string :=
  "Al" +:+ to_string n +:+ "        Al     " +:+ r (x p) +:+ row_tail p.

(** [strcmp(p.id, "Si") == 0]. *)
Definition is_Si (p : atom) : bool := String.eqb (id p) "Si".

(** The number of Si atoms among the first [i] atoms: for a Si atom at index
    [i], its zero-based position among the Si atoms. *)
Definition si_before (atoms : list atom) (i : nat) : Z :=
  Z.of_nat (length (filter (fun p => is_Si p = true) (take i atoms))).

Definition si_count (atoms : list atom) : Z :=
  Z.of_nat (length (filter (fun p => is_Si p = true) atoms)).

(** The atom at index [i] is written as aluminium. *)
Definition substituted (Als : list Z) (atoms : list atom) (i : nat) : bool :=
  match atoms !! i with
  | Some p => is_Si p && bool_decide (si_before atoms i ∈ Als)
  | None => false
  end.

(** The number of atoms written as aluminium among the first [i]. *)
Definition subst_before (Als : list Z) (atoms : list atom) (i : nat) : Z :=
  Z.of_nat (length (filter (fun j => substituted Als atoms j = true) (seq 0 i))).

(** The row of the atom [p] at index [i]. *)
Definition row_at (Als : list Z) (atoms : list atom) (i : nat) (p : atom) : string :=
  if substituted Als atoms i
  then Al_row (1 + subst_before Als atoms i) p
  else own_row p.

Definition atom_rows (Als : list Z) (atoms : list atom) : list string :=
  imap (row_at Als atoms) atoms.

Definition title_block (name_zeo : string) : string :=
  "data_" +:+ name_zeo +:+ nl +:+ nl +:+
  "_audit_creation_method RASPA-1.0" +:+ nl.

Definition date_line (date : string) : string :=
  "_audit_creation_date " +:+ date +:+ nl.

Definition author_line (user : string) : string :=
  "_audit_author_name '" +:+ user +:+ "'" +:+ nl +:+ nl.

Definition cell_lines (g : globals) : string :=
  "_cell_length_a    " +:+ r (a g) +:+ nl +:+
  "_cell_length_b    " +:+ r (b g) +:+ nl +:+
  "_cell_length_c    " +:+ r (c g) +:+ nl +:+
  "_cell_angle_alpha " +:+ r (alpha g) +:+ nl +:+
  "_cell_angle_beta  " +:+ r (beta g) +:+ nl +:+
  "_cell_angle_gamma " +:+ r (gama g) +:+ nl.

Definition volume_line (v : float) : string :=
  "_cell_volume      " +:+ r v +:+ nl +:+ nl.

Definition symmetry_block (g : globals) : string :=
  "_symmetry_cell_setting          " +:+ setting g +:+ nl +:+
  "_symmetry_space_group_name_Hall 'P 1'" +:+ nl +:+
  "_symmetry_space_group_name_H-M  'P 1'" +:+ nl +:+
  "_symmetry_Int_Tables_number     1" +:+ nl +:+
  "_symmetry_equiv_pos_as_xyz 'x,y,z'" +:+ nl +:+ nl.

Definition loop_header : string :=
  "loop_" +:+ nl +:+
  "_atom_site_label" +:+ nl +:+
  "_atom_site_type_symbol" +:+ nl +:+
  "_atom_site_fract_x" +:+ nl +:+
  "_atom_site_fract_y" +:+ nl +:+
  "_atom_site_fract_z" +:+ nl +:+
  "_atom_site_charge" +:+ nl.

Fixpoint concat_rows (rows : list string) : string :=
  match rows with
  | [] => EmptyString
  | row :: rows' => row +:+ concat_rows rows'
  end.

(** Everything after the author line, up to the atom rows. *)
Definition cell_and_loop (g : globals) : string :=
  cell_lines g +:+ volume_line (a g * b g * c g)%float +:+
  symmetry_block g +:+ loop_header.

(** Everything up to the atom rows. *)
Definition header (g : globals) (name_zeo date user : string) : string :=
  title_block name_zeo +:+ date_line date +:+ author_line user +:+
  cell_and_loop g.

Definition cif_text (g : globals) (atoms : list atom) (Als : list Z)
    (name_zeo date user : string) : string :=
  header g name_zeo date user +:+ concat_rows (atom_rows Als atoms).

End Text.

(** ** Notions used in the statements *)

(** [write s st]: the stream [st] after the characters [s]. *)
Definition write (s : string) (st : ios) : ios :=
  {| buf := buf st +:+ s; precision := precision st;
     ffield := ffield st; width := width st |}.

(** The formatting state the writer keeps between two insertions. *)
Definition formatted (st : ios) : Prop :=
  ffield st = ff_fixed /\ precision st = 3%nat /\ width st = 0%nat.

(** [appends c v s]: from a formatted stream, [c] yields [v] and writes
    exactly [s], leaving the formatting state as it was. *)
Definition appends {A : Type} (c : M A) (v : A) (s : string) : Prop :=
  forall st, formatted st -> c st = Ok (v, write s st).

(** The file stream once [setprecision(3)] and [fixed] are applied. *)
Definition fout_ready : ios :=
  {| buf := EmptyString; precision := 3; ffield := ff_fixed; width := 0 |}.

(** The globals with another value of [Tatoms]. *)
Definition set_Tatoms (g : globals) (t : Z) : globals :=
  {| Natoms := Natoms g; Tatoms := t; a := a g; b := b g; c := c g;
     alpha := alpha g; beta := beta g; gama := gama g; setting := setting g;
     Neqsteps := Neqsteps g; Nvisits := Nvisits g |}.

(** The world at another local date. *)
Definition set_date (w : world) (date : string) : world :=
  {| files := files w; can_open := can_open w; cerr := cerr w;
     environ := environ w; local_date := date |}.

(** The world a call leaves behind, if there is one. *)
Definition final_world (o : outcome) : option world :=
  match o with
  | Returned w => Some w
  | Exited _ w => Some w
  | Undefined _ => None
  end.

(** [runs_as c s k]: from a formatted stream, [c] writes [s] and goes on as
    [k]. *)
Definition runs_as {A : Type} (c : M A) (s : string) (k : M A) : Prop :=
  forall st, formatted st -> c st = k (write s st).

(** The globals with another value of [Natoms]. *)
Definition set_Natoms (g : globals) (n : Z) : globals :=
  {| Natoms := n; Tatoms := Tatoms g; a := a g; b := b g; c := c g;
     alpha := alpha g; beta := beta g; gama := gama g; setting := setting g;
     Neqsteps := Neqsteps g; Nvisits := Nvisits g |}.

(** The atom [p] with the label and the type symbol of aluminium number
    [n]. *)
Definition as_aluminium (n : Z) (p : atom) : atom :=
  {| id := "Al"; at_ := "Al" +:+ to_string n;
     x := x p; y := y p; z := z p; q := q p |}.

(** * Properties *)

(** ** Strings *)

(** The rendering on a few values, as [printf] with [%.3f] prints them. *)
Example render_examples :
  map (render_fixed 3)
      [0.1; 1.2; (-0.8); 0.0005; 0.0015; 2.5; 1234.5678; (-0); 1e22; infinity]%float
  = ["0.100"; "1.200"; "-0.800"; "0.001"; "0.002"; "2.500"; "1234.568"; "-0.000";
     "10000000000000000000000.000"; "inf"].
Proof. vm_compute. reflexivity. Qed.

Lemma append_assoc (s1 s2 s3 : string) :
  (s1 +:+ s2) +:+ s3 = s1 +:+ s2 +:+ s3.
Proof.
  induction s1 as [|ch s1 IH]; [reflexivity|].
  change (String ch ((s1 +:+ s2) +:+ s3) = String ch (s1 +:+ s2 +:+ s3)).
  now rewrite IH.
Qed.

Lemma append_empty_r (s : string) : s +:+ EmptyString = s.
Proof.
  induction s as [|ch s IH]; [reflexivity|].
  change (String ch (s +:+ EmptyString) = String ch s). now rewrite IH.
Qed.

(** ** Streams *)

Lemma write_formatted (s : string) (st : ios) :
  formatted st -> formatted (write s st).
Proof. intros H. exact H. Qed.

Lemma write_write (s1 s2 : string) (st : ios) :
  write s2 (write s1 st) = write (s1 +:+ s2) st.
Proof. unfold write; cbn [buf precision ffield width]. now rewrite append_assoc. Qed.

Lemma write_empty (st : ios) : write EmptyString st = st.
Proof. destruct st; unfold write; cbn. now rewrite append_empty_r. Qed.

Lemma appends_ret {A : Type} (v : A) : appends (mret v) v EmptyString.
Proof. intros st _. now rewrite write_empty. Qed.

Lemma appends_bind {A B : Type} (c : M A) (k : A -> M B) v w s1 s2 :
  appends c v s1 -> appends (k v) w s2 -> appends (c ≫= k) w (s1 +:+ s2).
Proof.
  intros Hc Hk st Hst. unfold mbind, M_bind.
  rewrite (Hc st Hst), (Hk _ (write_formatted s1 st Hst)).
  now rewrite write_write.
Qed.

Lemma appends_eq {A : Type} (c : M A) v s s' :
  s = s' -> appends c v s -> appends c v s'.
Proof. now intros ->. Qed.

Lemma appends_str (s : string) : appends (put_str s) tt s.
Proof.
  intros [bf pr ff wd] (Hf & Hp & Hw); cbn in Hf, Hp, Hw; subst.
  reflexivity.
Qed.

Lemma appends_int (n : Z) : appends (put_int n) tt (to_string n).
Proof.
  intros [bf pr ff wd] (Hf & Hp & Hw); cbn in Hf, Hp, Hw; subst.
  reflexivity.
Qed.

Lemma appends_double (d : float) : appends (put_double d) tt (render_fixed 3 d).
Proof.
  intros [bf pr ff wd] (Hf & Hp & Hw); cbn in Hf, Hp, Hw; subst.
  reflexivity.
Qed.

Lemma appends_endl : appends endl tt nl.
Proof. intros st _. reflexivity. Qed.

Lemma appends_setw_str {A : Type} (n : nat) (s : string) (k : M A) v t :
  appends k v t ->
  appends (setw n;; put_str s;; k) v (pad_left n s +:+ t).
Proof.
  intros Hk [bf pr ff wd] (Hf & Hp & Hw); cbn in Hf, Hp, Hw; subst.
  unfold mbind, M_bind, setw, put_str, emit; cbn [buf precision ffield width].
  rewrite Hk by (repeat split).
  unfold write; cbn [buf precision ffield width]. now rewrite append_assoc.
Qed.

Lemma appends_setw_double {A : Type} (n : nat) (d : float) (k : M A) v t :
  appends k v t ->
  appends (setw n;; put_double d;; k) v (pad_left n (render_fixed 3 d) +:+ t).
Proof.
  intros Hk [bf pr ff wd] (Hf & Hp & Hw); cbn in Hf, Hp, Hw; subst.
  unfold mbind, M_bind, setw, put_double, emit; cbn [buf precision ffield width].
  rewrite Hk by (repeat split).
  unfold write; cbn [buf precision ffield width]. now rewrite append_assoc.
Qed.

(** ** The rows *)

Lemma put_own_row_text (p : atom) :
  appends (put_own_row p) tt (own_row (render_fixed 3) p).
Proof.
  unfold put_own_row, own_row, row_tail. 
  eapply appends_bind; [apply appends_str|].
  apply appends_setw_str. apply appends_setw_double.
  apply appends_setw_double. apply appends_setw_double.
  apply appends_setw_double. apply appends_endl.
Qed.

Lemma put_Al_row_text (n : Z) (p : atom) :
  appends (put_Al_row n p) tt (Al_row (render_fixed 3) n p).
Proof.
  unfold put_Al_row, Al_row, row_tail.
  eapply appends_bind; [apply appends_str|].
  eapply appends_bind; [apply appends_int|].
  eapply appends_bind; [apply appends_str|].
  eapply appends_bind; [apply appends_double|].
  apply appends_setw_double. apply appends_setw_double.
  apply appends_setw_double. apply appends_endl.
Qed.

Lemma scan_Als_stopped (rest : list Z) (Tat : Z) (p : atom) (alcount : Z) :
  appends (scan_Als rest Tat p 0 alcount) (0, alcount) EmptyString.
Proof. destruct rest; apply appends_ret. Qed.

(** The scan of [Als] for one Si atom writes the aluminium row once if the
    atom's position is in [Als], and nothing otherwise. *)
Lemma scan_Als_text (rest : list Z) (Tat : Z) (p : atom) (alcount : Z) :
  appends (scan_Als rest Tat p 1 alcount)
    (if bool_decide (Tat ∈ rest) then (0, alcount + 1) else (1, alcount))
    (if bool_decide (Tat ∈ rest)
     then Al_row (render_fixed 3) alcount p else EmptyString).
Proof.
  induction rest as [|Alj rest IH].
  - rewrite bool_decide_eq_false_2 by apply not_elem_of_nil. apply appends_ret.
  - cbn [scan_Als]. change (1 =? 1) with true. cbv iota.
    destruct (Z.eqb_spec Tat Alj) as [->|Hne].
    + rewrite bool_decide_eq_true_2 by apply list_elem_of_here.
      eapply appends_eq; [apply append_empty_r|].
      eapply appends_bind; [apply put_Al_row_text|apply scan_Als_stopped].
    + replace (bool_decide (Tat ∈ Alj :: rest)) with (bool_decide (Tat ∈ rest)).
      * exact IH.
      * apply bool_decide_ext. rewrite elem_of_cons. tauto.
Qed.

Lemma si_before_S (atoms : list atom) (n : nat) (p : atom) :
  atoms !! n = Some p ->
  si_before atoms (S n) = si_before atoms n + (if is_Si p then 1 else 0).
Proof.
  intros Hp. unfold si_before.
  rewrite (take_S_r _ _ _ Hp), filter_app, length_app.
  destruct (is_Si p) eqn:E.
  - rewrite filter_cons_True by exact E. cbn. lia.
  - rewrite filter_cons_False by (rewrite E; discriminate). cbn. lia.
Qed.

Lemma subst_before_S (Als : list Z) (atoms : list atom) (n : nat) :
  subst_before Als atoms (S n) =
  subst_before Als atoms n + (if substituted Als atoms n then 1 else 0).
Proof.
  unfold subst_before. rewrite seq_S, filter_app, length_app. cbn [Nat.add].
  destruct (substituted Als atoms n) eqn:E.
  - rewrite filter_cons_True by exact E. cbn. lia.
  - rewrite filter_cons_False by (rewrite E; discriminate). cbn. lia.
Qed.

Lemma si_before_all (atoms : list atom) :
  si_before atoms (length atoms) = si_count atoms.
Proof. unfold si_before, si_count. now rewrite firstn_all. Qed.

(** The loop over the atoms, from index [length pre] to the end of the
    array. *)
Lemma atoms_loop_from (Als : list Z) (atoms : list atom) :
  forall (l pre : list atom), atoms = pre ++ l ->
  appends
    (atoms_loop (length l) atoms Als (Z.of_nat (length pre))
       (si_before atoms (length pre) - 1)
       (1 + subst_before Als atoms (length pre)))
    (si_count atoms - 1, 1 + subst_before Als atoms (length atoms))
    (concat_rows
       (imap (fun j => row_at (render_fixed 3) Als atoms (length pre + j)) l)).
Proof.
  induction l as [|p l IH]; intros pre Hat.
  - cbn [length atoms_loop imap concat_rows].
    assert (length atoms = length pre) as ->
      by (rewrite Hat, length_app; cbn; lia).
    rewrite <- (si_before_all atoms).
    assert (length atoms = length pre) as ->
      by (rewrite Hat, length_app; cbn; lia).
    apply appends_ret.
  - assert (Hp : atoms !! length pre = Some p)
      by (rewrite Hat; apply list_lookup_middle; reflexivity).
    assert (Hat' : atoms = (pre ++ [p]) ++ l) by (rewrite <- app_assoc; exact Hat).
    specialize (IH (pre ++ [p]) Hat').
    rewrite length_app in IH. cbn [length] in IH.
    replace (length pre + 1)%nat with (S (length pre)) in IH by lia.
    rewrite (si_before_S _ _ _ Hp), subst_before_S in IH.
    replace (Z.of_nat (S (length pre))) with (Z.of_nat (length pre) + 1) in IH by lia.
    cbn [length atoms_loop imap concat_rows].
    rewrite Nat2Z.id, Hp, Nat.add_0_r.
    assert (Hrows :
      imap ((fun j => row_at (render_fixed 3) Als atoms (length pre + j)) ∘ S) l
      = imap (fun j => row_at (render_fixed 3) Als atoms (S (length pre) + j)) l).
    { apply imap_ext. intros j q' _. cbn. f_equal. lia. }
    rewrite Hrows. clear Hrows.
    unfold row_at at 1. unfold substituted at 1. rewrite Hp.
    unfold substituted at 1 in IH. rewrite Hp in IH.
    fold (is_Si p). destruct (is_Si p) eqn:ESi; cbn [andb] in *.
    + replace (si_before atoms (length pre) - 1 + 1)
        with (si_before atoms (length pre)) by lia.
      replace (si_before atoms (length pre) + 1 - 1)
        with (si_before atoms (length pre)) in IH by lia.
      pose proof (scan_Als_text Als (si_before atoms (length pre)) p
                    (1 + subst_before Als atoms (length pre))) as Hscan.
      destruct (bool_decide (si_before atoms (length pre) ∈ Als)).
      * eapply appends_bind; [exact Hscan|].
        cbn beta iota. change (0 =? 1) with false. cbv iota.
        eapply (appends_eq _ _ (EmptyString +:+ _)); [reflexivity|].
        eapply (appends_bind _ _ tt); [apply appends_ret|].
        replace (1 + subst_before Als atoms (length pre) + 1)
          with (1 + (subst_before Als atoms (length pre) + 1)) by lia.
        exact IH.
      * eapply (appends_eq _ _ (EmptyString +:+ _)); [reflexivity|].
        eapply appends_bind; [exact Hscan|].
        cbn beta iota. change (1 =? 1) with true. cbv iota.
        eapply (appends_bind _ _ tt); [apply put_own_row_text|].
        rewrite Z.add_0_r in IH. exact IH.
    + eapply (appends_bind _ _ tt); [apply put_own_row_text|].
      rewrite !Z.add_0_r in IH. exact IH.
Qed.

Lemma atoms_loop_text (Als : list Z) (atoms : list atom) :
  appends (atoms_loop (length atoms) atoms Als 0 (-1) 1)
    (si_count atoms - 1, 1 + subst_before Als atoms (length atoms))
    (concat_rows (atom_rows (render_fixed 3) Als atoms)).
Proof. exact (atoms_loop_from Als atoms atoms [] eq_refl). Qed.

(** ** The document *)

(** The loop reads the array below index [i + n] only. *)
Lemma atoms_loop_take (Als : list Z) (atoms : list atom) (n : nat) :
  forall (i : nat) (Tat alcount : Z) (st : ios),
  atoms_loop n (take (i + n) atoms) Als (Z.of_nat i) Tat alcount st =
  atoms_loop n atoms Als (Z.of_nat i) Tat alcount st.
Proof.
  induction n as [|n IH]; intros i Tat alcount st; [reflexivity|].
  cbn [atoms_loop]. rewrite Nat2Z.id, lookup_take_lt by lia.
  destruct (atoms !! i) as [p|]; [|reflexivity].
  replace (Z.of_nat i + 1) with (Z.of_nat (S i)) by lia.
  replace (i + S n)%nat with (S i + n)%nat by lia.
  unfold mbind, M_bind.
  destruct (String.eqb (id p) "Si").
  - destruct (scan_Als Als (Tat + 1) p 1 alcount st) as [[[ctl alc] st1]|e];
      [|reflexivity].
    destruct ((if ctl =? 1 then put_own_row p else mret ()) st1) as [[u st2]|e];
      [|reflexivity].
    apply IH.
  - destruct (put_own_row p st) as [[u st1]|e]; [|reflexivity].
    apply IH.
Qed.

(** With [n] at most the length of the array, the loop writes the rows of the
    first [n] atoms. *)
Lemma atoms_loop_prefix_text (Als : list Z) (atoms : list atom) (n : nat) :
  (n <= length atoms)%nat ->
  appends (atoms_loop n atoms Als 0 (-1) 1)
    (si_count (take n atoms) - 1,
     1 + subst_before Als (take n atoms) (length (take n atoms)))
    (concat_rows (atom_rows (render_fixed 3) Als (take n atoms))).
Proof.
  intros Hn st Hst.
  pose proof (atoms_loop_take Als atoms n 0 (-1) 1 st) as Htake.
  change (Z.of_nat 0) with 0 in Htake. change (0 + n)%nat with n in Htake.
  rewrite <- Htake.
  pose proof (atoms_loop_text Als (take n atoms) st Hst) as H.
  rewrite length_take_le in H at 1 by exact Hn. exact H.
Qed.

Lemma fout_ready_formatted : formatted fout_ready.
Proof. repeat split. Qed.

Lemma run_setprecision_fixed {A : Type} (k : M A) :
  (setprecision 3;; fixed;; k) ios_init = k fout_ready.
Proof. reflexivity. Qed.

Ltac appends_chain :=
  repeat (eapply appends_bind;
          [first [apply appends_str | apply appends_double | apply appends_endl]|]).

(** The writer's stream computation yields the closed-form text of the
    first [Natoms] atoms, and the final counters. *)
Lemma write_cif_prefix_text (g : globals) (atoms : list atom) (Als : list Z)
    (name_zeo date user : string) :
  Natoms g <= Z.of_nat (length atoms) ->
  let atoms' := take (Z.to_nat (Natoms g)) atoms in
  write_cif g atoms Als name_zeo date user ios_init =
  Ok ((si_count atoms' - 1, 1 + subst_before Als atoms' (length atoms')),
      write (cif_text (render_fixed 3) g atoms' Als name_zeo date user) fout_ready).
Proof.
  intros HN atoms'. subst atoms'. unfold write_cif. rewrite run_setprecision_fixed.
  match goal with
  | |- ?c fout_ready = Ok (?v, write ?s fout_ready) =>
      cut (appends c v s); [intros H; exact (H _ fout_ready_formatted)|]
  end.
  eapply appends_eq; cycle 1.
  - appends_chain. apply atoms_loop_prefix_text. lia.
  - unfold cif_text, header, cell_and_loop, title_block, date_line, author_line,
      cell_lines, volume_line, symmetry_block, loop_header.
    rewrite !append_assoc. reflexivity.
Qed.

Lemma write_cif_text (g : globals) (atoms : list atom) (Als : list Z)
    (name_zeo date user : string) :
  Natoms g = Z.of_nat (length atoms) ->
  write_cif g atoms Als name_zeo date user ios_init =
  Ok ((si_count atoms - 1, 1 + subst_before Als atoms (length atoms)),
      write (cif_text (render_fixed 3) g atoms Als name_zeo date user) fout_ready).
Proof.
  intros HN.
  rewrite (write_cif_prefix_text g atoms Als name_zeo date user) by lia.
  rewrite HN, Nat2Z.id, firstn_all. reflexivity.
Qed.

(** A call that can open its file and stays inside the array returns, leaving
    the closed-form text of the first [Natoms] atoms in the file. *)
Lemma print_structure_returns_prefix (g : globals) (atoms : list atom)
    (Als : list Z) (struc : Z) (name_zeo name_alg out_name : string) (w : world) :
  can_open w (file_name struc name_zeo name_alg out_name) = true ->
  Natoms g <= Z.of_nat (length atoms) ->
  print_structure g atoms Als struc name_zeo name_alg out_name w =
  Returned (set_file w (file_name struc name_zeo name_alg out_name)
              (cif_text (render_fixed 3) g (take (Z.to_nat (Natoms g)) atoms) Als
                 name_zeo (local_date w) (lookup_username w))).
Proof.
  intros Hopen HN. unfold print_structure.
  rewrite Hopen, (write_cif_prefix_text _ _ _ _ _ _ HN). reflexivity.
Qed.

Lemma print_structure_returns (g : globals) (atoms : list atom) (Als : list Z)
    (struc : Z) (name_zeo name_alg out_name : string) (w : world) :
  can_open w (file_name struc name_zeo name_alg out_name) = true ->
  Natoms g = Z.of_nat (length atoms) ->
  print_structure g atoms Als struc name_zeo name_alg out_name w =
  Returned (set_file w (file_name struc name_zeo name_alg out_name)
              (cif_text (render_fixed 3) g atoms Als name_zeo
                 (local_date w) (lookup_username w))).
Proof.
  intros Hopen HN. unfold print_structure.
  rewrite Hopen, (write_cif_text _ _ _ _ _ _ HN). reflexivity.
Qed.

Lemma written_set_file (w : world) (path content : string) :
  written (Returned (set_file w path content)) path = Some content.
Proof. unfold written, set_file; cbn [files]. apply lookup_insert_eq. Qed.

(** ** Positions among the Si atoms *)

Lemma si_count_app (l1 l2 : list atom) :
  si_count (l1 ++ l2) = si_count l1 + si_count l2.
Proof. unfold si_count. rewrite filter_app, length_app. lia. Qed.

Lemma si_count_nonneg (l : list atom) : 0 <= si_count l.
Proof. unfold si_count. lia. Qed.

Lemma si_count_single (p : atom) :
  si_count [p] = if is_Si p then 1 else 0.
Proof.
  unfold si_count. destruct (is_Si p) eqn:E.
  - rewrite filter_cons_True by exact E. reflexivity.
  - rewrite filter_cons_False by (rewrite E; discriminate). reflexivity.
Qed.

(** A Si atom's position is below the number of Si atoms. *)
Lemma si_before_range (atoms : list atom) (i : nat) (p : atom) :
  atoms !! i = Some p -> is_Si p = true ->
  0 <= si_before atoms i < si_count atoms.
Proof.
  intros Hp HSi. split; [unfold si_before; lia|].
  rewrite <- (take_drop_middle atoms i p Hp) at 2.
  rewrite si_count_app. change (p :: drop (S i) atoms) with ([p] ++ drop (S i) atoms).
  rewrite si_count_app, si_count_single, HSi.
  pose proof (si_count_nonneg (drop (S i) atoms)).
  change (si_before atoms i) with (si_count (take i atoms)). lia.
Qed.

(** Every position below the number of Si atoms is that of some Si atom. *)
Lemma si_position_exists (atoms : list atom) (k : Z) :
  0 <= k < si_count atoms ->
  exists i p, atoms !! i = Some p /\ is_Si p = true /\ si_before atoms i = k.
Proof.
  induction atoms as [|p l IH] using rev_ind; intros Hk.
  - change (si_count []) with 0 in Hk. lia.
  - rewrite si_count_app, si_count_single in Hk.
    destruct (Z_lt_dec k (si_count l)) as [Hlt|Hge].
    + destruct IH as (i & p' & Hi & HSi & Hr); [lia|].
      exists i, p'. split; [|split; [exact HSi|]].
      * apply lookup_app_l_Some. exact Hi.
      * unfold si_before in *. rewrite take_app_le; [exact Hr|].
        apply lookup_lt_Some in Hi. lia.
    + destruct (is_Si p) eqn:E; [|lia].
      exists (length l), p. split; [|split; [exact E|]].
      * apply list_lookup_middle. reflexivity.
      * unfold si_before. rewrite take_app_length. fold (si_count l). lia.
Qed.

(** The aluminium rows before index [i] are counted by the positions below
    that of index [i] that occur in [Als]. *)
Lemma subst_before_positions (Als : list Z) (atoms : list atom) (i : nat) :
  subst_before Als atoms i =
  Z.of_nat (length (filter (fun k => Z.of_nat k ∈ Als)
                      (seq 0 (Z.to_nat (si_before atoms i))))).
Proof.
  induction i as [|i IH]; [reflexivity|].
  rewrite subst_before_S, IH. unfold substituted.
  destruct (atoms !! i) as [p|] eqn:Hp.
  - rewrite (si_before_S _ _ _ Hp).
    destruct (is_Si p); cbn [andb].
    + assert (H0 : 0 <= si_before atoms i) by (unfold si_before; lia).
      rewrite Z2Nat.inj_add by lia. change (Z.to_nat 1) with 1%nat.
      rewrite Nat.add_1_r, seq_S, filter_app, length_app. cbn [Nat.add].
      set (n := Z.to_nat (si_before atoms i)).
      replace (si_before atoms i) with (Z.of_nat n) by lia.
      destruct (decide (Z.of_nat n ∈ Als)) as [Hin|Hnin].
      * rewrite bool_decide_eq_true_2 by exact Hin.
        rewrite filter_cons_True by exact Hin. cbn. lia.
      * rewrite bool_decide_eq_false_2 by exact Hnin.
        rewrite filter_cons_False by exact Hnin. cbn. lia.
    + rewrite !Z.add_0_r. reflexivity.
  - assert (Hlen : (length atoms <= i)%nat) by (apply lookup_ge_None; exact Hp).
    unfold si_before. rewrite !take_ge by lia. lia.
Qed.

(** Only the members of [Als] that are positions of Si atoms matter. *)
Lemma substituted_ext (Als Als' : list Z) (atoms : list atom) :
  (forall k, 0 <= k < si_count atoms -> (k ∈ Als <-> k ∈ Als')) ->
  forall i, substituted Als atoms i = substituted Als' atoms i.
Proof.
  intros Hext i. unfold substituted.
  destruct (atoms !! i) as [p|] eqn:Hp; [|reflexivity].
  destruct (is_Si p) eqn:E; [|reflexivity]. cbn [andb].
  apply bool_decide_ext, Hext, (si_before_range _ _ _ Hp E).
Qed.

Lemma subst_before_ext (Als Als' : list Z) (atoms : list atom) :
  (forall k, 0 <= k < si_count atoms -> (k ∈ Als <-> k ∈ Als')) ->
  forall i, subst_before Als atoms i = subst_before Als' atoms i.
Proof.
  intros Hext i. induction i as [|i IH]; [reflexivity|].
  now rewrite !subst_before_S, IH, (substituted_ext _ _ _ Hext).
Qed.

Lemma atom_rows_ext (r : float -> string) (Als Als' : list Z) (atoms : list atom) :
  (forall k, 0 <= k < si_count atoms -> (k ∈ Als <-> k ∈ Als')) ->
  atom_rows r Als atoms = atom_rows r Als' atoms.
Proof.
  intros Hext. unfold atom_rows. apply imap_ext. intros i p _.
  unfold row_at.
  now rewrite (substituted_ext _ _ _ Hext), (subst_before_ext _ _ _ Hext).
Qed.

Lemma cif_text_ext (r : float -> string) (g : globals) (Als Als' : list Z)
    (atoms : list atom) (name_zeo date user : string) :
  (forall k, 0 <= k < si_count atoms -> (k ∈ Als <-> k ∈ Als')) ->
  cif_text r g atoms Als name_zeo date user =
  cif_text r g atoms Als' name_zeo date user.
Proof. intros Hext. unfold cif_text. now rewrite (atom_rows_ext _ _ _ _ Hext). Qed.

(** ** The shape of a rendered double *)

Lemma length_append (s1 s2 : string) :
  String.length (s1 +:+ s2) = (String.length s1 + String.length s2)%nat.
Proof.
  induction s1 as [|ch s1 IH]; [reflexivity|].
  change (S (String.length (s1 +:+ s2)) = S (String.length s1 + String.length s2)).
  now rewrite IH.
Qed.

Lemma all_digits_append (s1 s2 : string) :
  all_digits (s1 +:+ s2) = all_digits s1 && all_digits s2.
Proof.
  induction s1 as [|ch s1 IH]; [reflexivity|].
  change (is_digit ch && all_digits (s1 +:+ s2)
          = is_digit ch && all_digits s1 && all_digits s2).
  now rewrite IH, andb_assoc.
Qed.

Lemma digit_is_digit (d : Z) : 0 <= d < 10 -> is_digit (digit d) = true.
Proof.
  intros Hd.
  assert (d = 0 \/ d = 1 \/ d = 2 \/ d = 3 \/ d = 4 \/
          d = 5 \/ d = 6 \/ d = 7 \/ d = 8 \/ d = 9) as Hcases by lia.
  repeat (destruct Hcases as [->|Hcases]; [reflexivity|]).
  subst d. reflexivity.
Qed.

Lemma low_digits_shape (k : nat) (n : Z) :
  String.length (low_digits k n) = k /\ all_digits (low_digits k n) = true.
Proof.
  revert n. induction k as [|k IH]; intros n; [split; reflexivity|].
  destruct (IH (n / 10)) as [Hlen Hdig]. cbn [low_digits]. split.
  - rewrite length_append, Hlen. cbn. lia.
  - rewrite all_digits_append, Hdig. cbn [all_digits andb].
    rewrite digit_is_digit by (apply Z.mod_pos_bound; lia). reflexivity.
Qed.

Lemma string_of_uint_digits (u : Decimal.uint) :
  all_digits (NilEmpty.string_of_uint u) = true.
Proof. induction u; cbn; auto. Qed.

Lemma to_string_shape (n : Z) :
  0 <= n ->
  exists ch s, to_string n = String ch s /\ is_digit ch = true /\ all_digits s = true.
Proof.
  intros Hn. destruct n as [|p|p]; [| |lia].
  - exists "0"%char, EmptyString. repeat split.
  - unfold to_string, NilZero.string_of_uint.
    pose proof (string_of_uint_digits (Pos.to_uint p)) as Hd.
    pose proof (DecimalPos.Unsigned.to_uint_nonnil p) as Hnil.
    destruct (Pos.to_uint p) eqn:E; [congruence| ..];
      cbn [NilEmpty.string_of_uint] in *; eexists _, _;
      (split; [reflexivity|]); apply andb_prop in Hd; exact Hd.
Qed.

Lemma digit_not_point (ch : ascii) :
  is_digit ch = true -> Ascii.eqb ch "."%char = false.
Proof.
  intros Hd. destruct (Ascii.eqb_spec ch "."%char) as [->|]; [discriminate|reflexivity].
Qed.

Lemma digit_not_minus (ch : ascii) :
  is_digit ch = true -> Ascii.eqb ch "-"%char = false.
Proof.
  intros Hd. destruct (Ascii.eqb_spec ch "-"%char) as [->|]; [discriminate|reflexivity].
Qed.

Lemma digits_point_3_accepts (int_part frac : string) (seen : bool) :
  all_digits int_part = true ->
  seen = true \/ int_part <> EmptyString ->
  String.length frac = 3%nat -> all_digits frac = true ->
  digits_point_3 seen (int_part +:+ String "."%char frac) = true.
Proof.
  revert seen. induction int_part as [|ch s IH]; intros seen Hd Hseen Hlen Hfrac.
  - destruct Hseen as [->|Hne]; [|congruence].
    change (true && (String.length frac =? 3)%nat && all_digits frac = true).
    rewrite Hlen, Hfrac. reflexivity.
  - cbn [all_digits] in Hd. apply andb_prop in Hd as [Hch Hs].
    change (digits_point_3 seen (String ch (s +:+ String "."%char frac)) = true).
    cbn [digits_point_3]. rewrite (digit_not_point _ Hch), Hch.
    cbn [andb]. apply IH; auto.
Qed.

Lemma round_even_nonneg (m e : Z) : 0 <= m -> 0 <= round_even m e.
Proof.
  intros Hm. unfold round_even. destruct (0 <=? e) eqn:He.
  - apply Z.leb_le in He. apply Z.mul_nonneg_nonneg; [exact Hm|].
    apply Z.pow_nonneg. lia.
  - apply Z.leb_gt in He.
    assert (0 < 2 ^ (- e)) by (apply Z.pow_pos_nonneg; lia).
    assert (0 <= m / 2 ^ (- e)) by (apply Z.div_pos; lia).
    cbv zeta. destruct (2 * (m mod 2 ^ (- e)) ?= 2 ^ (- e));
      [destruct (Z.even _)| |]; lia.
Qed.

Lemma fixed_of_scaled_3_shape (s : bool) (n : Z) :
  0 <= n ->
  has_3_fraction_digits (sign_text s +:+ fixed_of_scaled 3 n) = true.
Proof.
  intros Hn. unfold fixed_of_scaled.
  assert (H0 : 0 <= n / 10 ^ Z.of_nat 3) by (apply Z.div_pos; lia).
  destruct (to_string_shape _ H0) as (ch & t & -> & Hch & Ht).
  destruct (low_digits_shape 3 (n mod 10 ^ Z.of_nat 3)) as [Hlen Hdig].
  assert (Hbody : digits_point_3 false
            (String ch t +:+ String "."%char (low_digits 3 (n mod 10 ^ Z.of_nat 3)))
          = true).
  { apply digits_point_3_accepts; [|right; discriminate|exact Hlen|exact Hdig].
    cbn [all_digits]. now rewrite Hch, Ht. }
  destruct s.
  - exact Hbody.
  - change (has_3_fraction_digits
              (String ch (t +:+ String "."%char (low_digits 3 (n mod 10 ^ Z.of_nat 3))))
            = true).
    unfold has_3_fraction_digits. rewrite (digit_not_minus _ Hch). exact Hbody.
Qed.

(** A finite double in fixed notation with precision 3 has exactly three
    digits after the point. *)
Lemma render_fixed_3_shape (d : float) :
  is_finite d = true -> has_3_fraction_digits (render_fixed 3 d) = true.
Proof.
  unfold is_finite, render_fixed.
  destruct (Prim2SF d) as [s|s| |s m e]; try discriminate; intros _.
  - apply fixed_of_scaled_3_shape. lia.
  - apply fixed_of_scaled_3_shape, round_even_nonneg. lia.
Qed.

(** ** Rows under particular substitution sets *)

Lemma atom_rows_no_Als (r : float -> string) (atoms : list atom) :
  atom_rows r [] atoms = own_row r <$> atoms.
Proof.
  unfold atom_rows. rewrite <- imap_const. apply imap_ext. intros i p Hp.
  unfold row_at, substituted. rewrite Hp.
  rewrite bool_decide_eq_false_2 by apply not_elem_of_nil.
  now rewrite andb_false_r.
Qed.

Lemma row_at_0_2 (r : float -> string) (atoms : list atom) (i : nat) (p : atom) :
  atoms !! i = Some p ->
  row_at r [0; 2] atoms i p =
  if is_Si p && (si_before atoms i =? 0)
  then "Al1        Al     " +:+ r (x p) +:+ row_tail r p
  else if is_Si p && (si_before atoms i =? 2)
  then "Al2        Al     " +:+ r (x p) +:+ row_tail r p
  else own_row r p.
Proof.
  intros Hp. unfold row_at, substituted. rewrite Hp.
  destruct (is_Si p); cbn [andb]; [|reflexivity].
  rewrite subst_before_positions.
  destruct (Z.eqb_spec (si_before atoms i) 0) as [->|H0].
  { reflexivity. }
  destruct (Z.eqb_spec (si_before atoms i) 2) as [->|H2].
  { reflexivity. }
  rewrite bool_decide_eq_false_2; [reflexivity|].
  rewrite !elem_of_cons, elem_of_nil. tauto.
Qed.

(** ** The counters stay small

    [Tat] and [alcount] are C [int]s, modelled as integers without bound:
    they end at most one above the number of atoms, so no [int] operation
    overflows unless the array has [INT_MAX] atoms. *)
Lemma counters_stay_in_range (Als : list Z) (atoms : list atom) :
  -1 <= si_count atoms - 1 < Z.of_nat (length atoms)
  /\ 1 <= 1 + subst_before Als atoms (length atoms) <= 1 + si_count atoms
  /\ si_count atoms <= Z.of_nat (length atoms).
Proof.
  assert (Hsi : 0 <= si_count atoms <= Z.of_nat (length atoms)).
  { unfold si_count.
    pose proof (length_filter (fun p => is_Si p = true) atoms). lia. }
  assert (Hsub : 0 <= subst_before Als atoms (length atoms) <= si_count atoms).
  { rewrite subst_before_positions, si_before_all.
    pose proof (length_filter (fun k => Z.of_nat k ∈ Als)
                  (seq 0 (Z.to_nat (si_count atoms)))) as Hlen.
    rewrite length_seq in Hlen. lia. }
  lia.
Qed.

(** ** Calls at concrete inputs *)

(** The end-to-end example, with the columns as the stream pads them. *)
Example one_substitution_example :
  written (print_structure Demo.cell Demo.atoms [1] 7 "MFI" "merw"
             "out" Demo.w0) "out/MFI_merw_7.cif" =
  Some (header (render_fixed 3) Demo.cell "MFI" "2024-01-15" "alice" +:+
        "T1        Si     0.100     0.200     0.300     1.200" +:+ nl +:+
        "O1         O     0.400     0.500     0.600    -0.800" +:+ nl +:+
        "Al1        Al     0.700     0.800     0.900     1.200" +:+ nl).
Proof. vm_compute. reflexivity. Qed.

(** A value listed twice, and the values out of order. *)
Example duplicate_example :
  written (print_structure Demo.cell5 Demo.atoms5 [2; 0; 2] 7 "MFI"
             "merw" "out" Demo.w0) "out/MFI_merw_7.cif" =
  Some (header (render_fixed 3) Demo.cell5 "MFI" "2024-01-15" "alice" +:+
        "Al1        Al     0.100     0.200     0.300     1.200" +:+ nl +:+
        "O1         O     0.400     0.500     0.600    -0.800" +:+ nl +:+
        "T2        Si     0.700     0.800     0.900     1.200" +:+ nl +:+
        "Al2        Al     0.250     0.750     0.500     1.200" +:+ nl +:+
        "O2         O     0.150     0.350     0.450    -0.800" +:+ nl).
Proof. vm_compute. reflexivity. Qed.

(** The header of the example cell. *)
Example header_example :
  header (render_fixed 3) Demo.cell "MFI" "2024-01-15" "alice" =
  "data_MFI" +:+ nl +:+ nl +:+
  "_audit_creation_method RASPA-1.0" +:+ nl +:+
  "_audit_creation_date 2024-01-15" +:+ nl +:+
  "_audit_author_name 'alice'" +:+ nl +:+ nl +:+
  "_cell_length_a    10.000" +:+ nl +:+
  "_cell_length_b    20.000" +:+ nl +:+
  "_cell_length_c    30.500" +:+ nl +:+
  "_cell_angle_alpha 90.000" +:+ nl +:+
  "_cell_angle_beta  90.000" +:+ nl +:+
  "_cell_angle_gamma 120.000" +:+ nl +:+
  "_cell_volume      6100.000" +:+ nl +:+ nl +:+
  "_symmetry_cell_setting          triclinic" +:+ nl +:+
  "_symmetry_space_group_name_Hall 'P 1'" +:+ nl +:+
  "_symmetry_space_group_name_H-M  'P 1'" +:+ nl +:+
  "_symmetry_Int_Tables_number     1" +:+ nl +:+
  "_symmetry_equiv_pos_as_xyz 'x,y,z'" +:+ nl +:+ nl +:+
  "loop_" +:+ nl +:+
  "_atom_site_label" +:+ nl +:+
  "_atom_site_type_symbol" +:+ nl +:+
  "_atom_site_fract_x" +:+ nl +:+
  "_atom_site_fract_y" +:+ nl +:+
  "_atom_site_fract_z" +:+ nl +:+
  "_atom_site_charge" +:+ nl.
Proof. vm_compute. reflexivity. Qed.

(** [Natoms] larger than the array: the loop reads past its end. *)
Example read_past_the_array :
  print_structure Demo.cell5 Demo.atoms [] 7 "MFI" "merw" "out"
    Demo.w0 = Undefined out_of_bounds.
Proof. vm_compute. reflexivity. Qed.

(** The directory is missing: the diagnostic and the exit status. *)
Example open_failure_example :
  print_structure Demo.cell Demo.atoms [1] 7 "MFI" "merw"
    "/missing/out" Demo.w0 =
  Exited 1 (set_cerr Demo.w0
    {| buf := "unable to open file /missing/out/MFI_merw_7.cif for writing" +:+ nl;
       precision := 6; ffield := ff_none; width := 0 |}).
Proof. vm_compute. reflexivity. Qed.

(** * The properties of the specification *)

(** C2: with an empty [Als], a call on an array of [Natoms] atoms writes,
    after the header, exactly one row per atom, in array order, each from
    that atom's own [at], [id], [x], [y], [z] and [q]. *)
Theorem empty_Als_rows_unchanged (g : globals) (atoms : list atom) (struc : Z)
    (name_zeo name_alg out_name : string) (w : world) :
  can_open w (file_name struc name_zeo name_alg out_name) = true ->
  Natoms g = Z.of_nat (length atoms) ->
  print_structure g atoms [] struc name_zeo name_alg out_name w =
    Returned (set_file w (file_name struc name_zeo name_alg out_name)
      (header (render_fixed 3) g name_zeo (local_date w) (lookup_username w)
       +:+ concat_rows (own_row (render_fixed 3) <$> atoms)))
  /\ Z.of_nat (length (own_row (render_fixed 3) <$> atoms)) = Natoms g.
Proof.
  intros Hopen HN. split.
  - rewrite (print_structure_returns _ _ _ _ _ _ _ _ Hopen HN).
    unfold cif_text. now rewrite atom_rows_no_Als.
  - now rewrite length_fmap, HN.
Qed.

(** C1: with [Als = {0, 2}] and at least three Si atoms, the rows of the
    first and of the third Si atom carry the labels Al1 and Al2 and the type
    symbol Al, every other row is the atom's own, and both aluminium rows
    occur; the order in which [Als] lists 0 and 2 does not matter. *)
Theorem Als_0_2_relabels_first_and_third_Si (g : globals) (atoms : list atom)
    (struc : Z) (name_zeo name_alg out_name : string) (w : world) :
  can_open w (file_name struc name_zeo name_alg out_name) = true ->
  Natoms g = Z.of_nat (length atoms) ->
  3 <= si_count atoms ->
  print_structure g atoms [0; 2] struc name_zeo name_alg out_name w =
    Returned (set_file w (file_name struc name_zeo name_alg out_name)
      (header (render_fixed 3) g name_zeo (local_date w) (lookup_username w)
       +:+ concat_rows
             (imap (fun i p =>
                if is_Si p && (si_before atoms i =? 0)
                then "Al1        Al     " +:+ render_fixed 3 (x p)
                       +:+ row_tail (render_fixed 3) p
                else if is_Si p && (si_before atoms i =? 2)
                then "Al2        Al     " +:+ render_fixed 3 (x p)
                       +:+ row_tail (render_fixed 3) p
                else own_row (render_fixed 3) p) atoms)))
  /\ (exists i p, atoms !! i = Some p /\ is_Si p = true /\ si_before atoms i = 0)
  /\ (exists i p, atoms !! i = Some p /\ is_Si p = true /\ si_before atoms i = 2)
  /\ (forall Als, (forall k, k ∈ Als <-> k = 0 \/ k = 2) ->
      print_structure g atoms Als struc name_zeo name_alg out_name w =
      print_structure g atoms [0; 2] struc name_zeo name_alg out_name w).
Proof.
  intros Hopen HN H3. split; [|split; [|split]].
  - rewrite (print_structure_returns _ _ _ _ _ _ _ _ Hopen HN).
    unfold cif_text, atom_rows. do 4 f_equal.
    apply imap_ext. intros i p Hp. now apply row_at_0_2.
  - apply si_position_exists. lia.
  - apply si_position_exists. lia.
  - intros Als HAls.
    rewrite !(print_structure_returns _ _ _ _ _ _ _ _ Hopen HN).
    do 2 f_equal. apply cif_text_ext. intros k _.
    rewrite HAls, !elem_of_cons, elem_of_nil. tauto.
Qed.

Lemma scan_Als_result (Als : list Z) (Tat : Z) (p : atom) (alcount : Z) (st : ios) :
  formatted st ->
  scan_Als Als Tat p 1 alcount st =
  if bool_decide (Tat ∈ Als)
  then Ok ((0, alcount + 1), write (Al_row (render_fixed 3) alcount p) st)
  else Ok ((1, alcount), st).
Proof.
  intros Hst. rewrite (scan_Als_text Als Tat p alcount st Hst).
  destruct (bool_decide (Tat ∈ Als)); [reflexivity|]. now rewrite write_empty.
Qed.

(** C3: whatever [Als] holds, duplicates included, every atom gets exactly
    one row; the scan of [Als] for an atom stops at the first match, so it
    writes at most one aluminium row and increments [alcount] at most once;
    a value listed twice has the effect of the value listed once; and the
    final [alcount] is one more than the number of Si positions that occur in
    [Als]. *)
Theorem duplicate_Als_one_row_per_atom (g : globals) (atoms : list atom)
    (Als : list Z) (struc : Z) (name_zeo name_alg out_name : string) (w : world) :
  can_open w (file_name struc name_zeo name_alg out_name) = true ->
  Natoms g = Z.of_nat (length atoms) ->
  print_structure g atoms Als struc name_zeo name_alg out_name w =
    Returned (set_file w (file_name struc name_zeo name_alg out_name)
      (header (render_fixed 3) g name_zeo (local_date w) (lookup_username w)
       +:+ concat_rows (atom_rows (render_fixed 3) Als atoms)))
  /\ length (atom_rows (render_fixed 3) Als atoms) = length atoms
  /\ (forall i p, atoms !! i = Some p ->
        atom_rows (render_fixed 3) Als atoms !! i =
        Some (if substituted Als atoms i
              then Al_row (render_fixed 3) (1 + subst_before Als atoms i) p
              else own_row (render_fixed 3) p))
  /\ print_structure g atoms (remove_dups Als) struc name_zeo name_alg out_name w =
     print_structure g atoms Als struc name_zeo name_alg out_name w
  /\ (forall Tat p alcount st, formatted st ->
        scan_Als Als Tat p 1 alcount st =
        if bool_decide (Tat ∈ Als)
        then Ok ((0, alcount + 1), write (Al_row (render_fixed 3) alcount p) st)
        else Ok ((1, alcount), st))
  /\ (exists st,
        write_cif g atoms Als name_zeo (local_date w) (lookup_username w) ios_init =
        Ok ((si_count atoms - 1, 1 + subst_before Als atoms (length atoms)), st))
  /\ subst_before Als atoms (length atoms) =
     Z.of_nat (length (filter (fun k => Z.of_nat k ∈ Als)
                         (seq 0 (Z.to_nat (si_count atoms))))).
Proof.
  intros Hopen HN. split; [|split; [|split; [|split; [|split; [|split]]]]].
  - now rewrite (print_structure_returns _ _ _ _ _ _ _ _ Hopen HN).
  - apply length_imap.
  - intros i p Hp. unfold atom_rows. rewrite list_lookup_imap, Hp. reflexivity.
  - rewrite !(print_structure_returns _ _ _ _ _ _ _ _ Hopen HN).
    do 2 f_equal. apply cif_text_ext. intros k _. apply elem_of_remove_dups.
  - intros Tat p alcount st. apply scan_Als_result.
  - eexists. apply (write_cif_text _ _ _ _ _ _ HN).
  - now rewrite subst_before_positions, si_before_all.
Qed.

(** C4: when [Tatoms] is the number of Si atoms, a member of [Als] that is
    negative or at least [Tatoms] matches no atom: the call returns, and it
    does exactly what the call without that value does. *)
Theorem out_of_range_index_is_inert (g : globals) (atoms : list atom)
    (Als : list Z) (k : Z) (struc : Z) (name_zeo name_alg out_name : string)
    (w : world) :
  can_open w (file_name struc name_zeo name_alg out_name) = true ->
  Natoms g = Z.of_nat (length atoms) ->
  Tatoms g = si_count atoms ->
  k < 0 \/ Tatoms g <= k ->
  (exists w', print_structure g atoms Als struc name_zeo name_alg out_name w
              = Returned w')
  /\ print_structure g atoms Als struc name_zeo name_alg out_name w =
     print_structure g atoms (filter (fun v => v <> k) Als)
       struc name_zeo name_alg out_name w
  /\ (forall i, substituted Als atoms i = true -> si_before atoms i <> k).
Proof.
  intros Hopen HN HT Hk. split; [|split].
  - eexists. apply (print_structure_returns _ _ _ _ _ _ _ _ Hopen HN).
  - rewrite !(print_structure_returns _ _ _ _ _ _ _ _ Hopen HN).
    do 2 f_equal. apply cif_text_ext. intros v Hv.
    rewrite list_elem_of_filter. split; [|tauto].
    intros Hin. split; [lia|exact Hin].
  - intros i Hi. unfold substituted in Hi.
    destruct (atoms !! i) as [p|] eqn:Hp; [|discriminate].
    apply andb_prop in Hi as [HSi _].
    pose proof (si_before_range _ _ _ Hp HSi). lia.
Qed.

(** C10: the value of [Tatoms] has no effect on a call; an atom is written
    as aluminium exactly when it is a Si atom whose zero-based position among
    the Si atoms is in [Als]; a member of [Als] at or above the actual
    number of Si atoms has no effect, whatever [Tatoms] holds; and a member
    of [Als] below that number does match an atom. *)
Theorem Tatoms_is_never_read (g : globals) (atoms : list atom) (Als : list Z)
    (struc : Z) (name_zeo name_alg out_name : string) (w : world) :
  (forall t, print_structure (set_Tatoms g t) atoms Als struc name_zeo name_alg
               out_name w
             = print_structure g atoms Als struc name_zeo name_alg out_name w)
  /\ (can_open w (file_name struc name_zeo name_alg out_name) = true ->
      Natoms g = Z.of_nat (length atoms) ->
      print_structure g atoms Als struc name_zeo name_alg out_name w =
      Returned (set_file w (file_name struc name_zeo name_alg out_name)
        (header (render_fixed 3) g name_zeo (local_date w) (lookup_username w)
         +:+ concat_rows
               (imap (fun i p =>
                  if is_Si p && bool_decide (si_before atoms i ∈ Als)
                  then Al_row (render_fixed 3) (1 + subst_before Als atoms i) p
                  else own_row (render_fixed 3) p) atoms))))
  /\ (forall k, si_count atoms <= k ->
      can_open w (file_name struc name_zeo name_alg out_name) = true ->
      Natoms g = Z.of_nat (length atoms) ->
      print_structure g atoms Als struc name_zeo name_alg out_name w =
      print_structure g atoms (filter (fun v => v <> k) Als)
        struc name_zeo name_alg out_name w)
  /\ (forall k, k ∈ Als -> 0 <= k < si_count atoms ->
      exists i p, atoms !! i = Some p /\ si_before atoms i = k
                  /\ substituted Als atoms i = true).
Proof.
  split; [|split; [|split]]; cycle 3.
  { intros k Hin Hk.
    destruct (si_position_exists atoms k Hk) as (i & p & Hp & HSi & Hpos).
    exists i, p. split; [exact Hp|split; [exact Hpos|]].
    unfold substituted. rewrite Hp, HSi, Hpos. cbn [andb].
    now apply bool_decide_eq_true_2. }
  - intros t. unfold print_structure, write_cif, set_Tatoms.
    cbn [Natoms a b c alpha beta gama setting]. reflexivity.
  - intros Hopen HN.
    rewrite (print_structure_returns _ _ _ _ _ _ _ _ Hopen HN).
    unfold cif_text, atom_rows. do 4 f_equal.
    apply imap_ext. intros i p Hp. unfold row_at, substituted. now rewrite Hp.
  - intros k Hk Hopen HN.
    rewrite !(print_structure_returns _ _ _ _ _ _ _ _ Hopen HN).
    do 2 f_equal. apply cif_text_ext. intros v Hv.
    rewrite list_elem_of_filter. split; [|tauto].
    intros Hin. split; [lia|exact Hin].
Qed.

Lemma cif_text_blocks (r : float -> string) (g : globals) (atoms : list atom)
    (Als : list Z) (name_zeo date user : string) :
  cif_text r g atoms Als name_zeo date user =
  title_block name_zeo +:+ date_line date +:+ author_line user +:+
  cell_and_loop r g +:+ concat_rows (atom_rows r Als atoms).
Proof. unfold cif_text, header. now rewrite !append_assoc. Qed.

(** C5: in every call that opens its file and stays inside the array, the
    volume line carries the rendering of the product [a*b*c] of the three
    cell lengths; the angles occur in their own three lines only. *)
Theorem cell_volume_is_plain_product (g : globals) (atoms : list atom)
    (Als : list Z) (struc : Z) (name_zeo name_alg out_name : string) (w : world) :
  can_open w (file_name struc name_zeo name_alg out_name) = true ->
  Natoms g <= Z.of_nat (length atoms) ->
  written (print_structure g atoms Als struc name_zeo name_alg out_name w)
    (file_name struc name_zeo name_alg out_name) =
  Some (title_block name_zeo +:+ date_line (local_date w) +:+
        author_line (lookup_username w) +:+
        ("_cell_length_a    " +:+ render_fixed 3 (a g) +:+ nl +:+
         "_cell_length_b    " +:+ render_fixed 3 (b g) +:+ nl +:+
         "_cell_length_c    " +:+ render_fixed 3 (c g) +:+ nl +:+
         "_cell_angle_alpha " +:+ render_fixed 3 (alpha g) +:+ nl +:+
         "_cell_angle_beta  " +:+ render_fixed 3 (beta g) +:+ nl +:+
         "_cell_angle_gamma " +:+ render_fixed 3 (gama g) +:+ nl +:+
         "_cell_volume      " +:+ render_fixed 3 (a g * b g * c g)%float
           +:+ nl +:+ nl) +:+
        symmetry_block g +:+ loop_header +:+
        concat_rows (atom_rows (render_fixed 3) Als
                       (take (Z.to_nat (Natoms g)) atoms))).
Proof.
  intros Hopen HN.
  rewrite (print_structure_returns_prefix _ _ _ _ _ _ _ _ Hopen HN),
    written_set_file.
  unfold cif_text, header, cell_and_loop, cell_lines, volume_line.
  now rewrite !append_assoc.
Qed.

(** C6: when the file cannot be opened, the call writes the diagnostic with
    the file name to the diagnostic stream, the process exits with status 1,
    and no file is touched. *)
Theorem open_failure_exits_with_1 (g : globals) (atoms : list atom)
    (Als : list Z) (struc : Z) (name_zeo name_alg out_name : string) (w : world) :
  can_open w (file_name struc name_zeo name_alg out_name) = false ->
  exists w',
    print_structure g atoms Als struc name_zeo name_alg out_name w = Exited 1 w'
    /\ buf (cerr w') =
       buf (cerr w) +:+ pad_left (width (cerr w)) "unable to open file " +:+
       (out_name +:+ "/" +:+ name_zeo +:+ "_" +:+ name_alg +:+ "_" +:+
        to_string struc +:+ ".cif") +:+ " for writing" +:+ nl
    /\ files w' = files w.
Proof.
  intros Hopen. eexists. unfold print_structure. rewrite Hopen.
  split; [reflexivity|split; [|reflexivity]].
  cbn [cerr set_cerr buf]. unfold pad_left at 2 3. cbn [Nat.sub spaces].
  change (file_name struc name_zeo name_alg out_name)
    with (out_name +:+ "/" +:+ name_zeo +:+ "_" +:+ name_alg +:+ "_" +:+
          to_string struc +:+ ".cif").
  generalize (out_name +:+ "/" +:+ name_zeo +:+ "_" +:+ name_alg +:+ "_" +:+
              to_string struc +:+ ".cif") as fname.
  intros fname.
  change (EmptyString +:+ fname) with fname.
  change (EmptyString +:+ " for writing") with " for writing"%string.
  now rewrite !append_assoc.
Qed.

(** C7: when neither USER nor USERNAME is set, the author line carries
    unknown_user and the call returns as usual; the rest of the file is what
    any other environment with the same date gives. *)
Theorem missing_username_placeholder (g : globals) (atoms : list atom)
    (Als : list Z) (struc : Z) (name_zeo name_alg out_name : string) (w : world) :
  getenv w "USER" = None ->
  getenv w "USERNAME" = None ->
  can_open w (file_name struc name_zeo name_alg out_name) = true ->
  Natoms g = Z.of_nat (length atoms) ->
  print_structure g atoms Als struc name_zeo name_alg out_name w =
    Returned (set_file w (file_name struc name_zeo name_alg out_name)
      (title_block name_zeo +:+ date_line (local_date w) +:+
       ("_audit_author_name 'unknown_user'" +:+ nl +:+ nl) +:+
       cell_and_loop (render_fixed 3) g +:+
       concat_rows (atom_rows (render_fixed 3) Als atoms)))
  /\ forall w2,
       can_open w2 (file_name struc name_zeo name_alg out_name) = true ->
       local_date w2 = local_date w ->
       print_structure g atoms Als struc name_zeo name_alg out_name w2 =
       Returned (set_file w2 (file_name struc name_zeo name_alg out_name)
         (title_block name_zeo +:+ date_line (local_date w) +:+
          ("_audit_author_name '" +:+ lookup_username w2 +:+ "'" +:+ nl +:+ nl) +:+
          cell_and_loop (render_fixed 3) g +:+
          concat_rows (atom_rows (render_fixed 3) Als atoms))).
Proof.
  intros HU HUN Hopen HN. split.
  - rewrite (print_structure_returns _ _ _ _ _ _ _ _ Hopen HN).
    unfold lookup_username. rewrite HU, HUN.
    unfold cif_text, header. now rewrite !append_assoc.
  - intros w2 Hopen2 Hdate.
    rewrite (print_structure_returns _ _ _ _ _ _ _ _ Hopen2 HN), Hdate.
    unfold cif_text, header, author_line. now rewrite !append_assoc.
Qed.

(** C9: two calls with the same arguments, globals and environment variables
    write the same file except for the date line, which carries the local
    date of each call; this covers a second call made in the world the first
    one left, at another date. *)
Theorem same_inputs_same_file_except_date (g : globals) (atoms : list atom)
    (Als : list Z) (struc : Z) (name_zeo name_alg out_name : string)
    (w1 w2 : world) :
  environ w1 = environ w2 ->
  can_open w1 (file_name struc name_zeo name_alg out_name) = true ->
  can_open w2 (file_name struc name_zeo name_alg out_name) = true ->
  Natoms g = Z.of_nat (length atoms) ->
  let rest :=
    author_line (lookup_username w1) +:+ cell_and_loop (render_fixed 3) g +:+
    concat_rows (atom_rows (render_fixed 3) Als atoms) in
  written (print_structure g atoms Als struc name_zeo name_alg out_name w1)
    (file_name struc name_zeo name_alg out_name) =
    Some (title_block name_zeo +:+
          ("_audit_creation_date " +:+ local_date w1 +:+ nl) +:+ rest)
  /\ written (print_structure g atoms Als struc name_zeo name_alg out_name w2)
       (file_name struc name_zeo name_alg out_name) =
     Some (title_block name_zeo +:+
           ("_audit_creation_date " +:+ local_date w2 +:+ nl) +:+ rest)
  /\ forall w1' date,
       print_structure g atoms Als struc name_zeo name_alg out_name w1
         = Returned w1' ->
       written (print_structure g atoms Als struc name_zeo name_alg out_name
                  (set_date w1' date))
         (file_name struc name_zeo name_alg out_name) =
       Some (title_block name_zeo +:+
             ("_audit_creation_date " +:+ date +:+ nl) +:+ rest).
Proof.
  intros Henv Hopen1 Hopen2 HN rest. subst rest.
  assert (Huser : lookup_username w2 = lookup_username w1)
    by (unfold lookup_username, getenv; now rewrite Henv).
  split; [|split].
  - rewrite (print_structure_returns _ _ _ _ _ _ _ _ Hopen1 HN), written_set_file.
    now rewrite cif_text_blocks.
  - rewrite (print_structure_returns _ _ _ _ _ _ _ _ Hopen2 HN), written_set_file.
    now rewrite cif_text_blocks, Huser.
  - intros w1' date Hrun.
    rewrite (print_structure_returns _ _ _ _ _ _ _ _ Hopen1 HN) in Hrun.
    injection Hrun as <-.
    match goal with
    | |- context [print_structure _ _ _ _ _ _ _ ?w'] =>
        rewrite (print_structure_returns g atoms Als struc name_zeo name_alg
                   out_name w' Hopen1 HN)
    end.
    rewrite written_set_file. now rewrite cif_text_blocks.
Qed.

(** C8, as stated, fails: with the finite cell lengths 1e200, 1e200 and 1 the
    product overflows, and the volume line carries inf, which has no
    fractional digits. *)
Lemma overflowing_volume_renders_inf :
  is_finite (a Demo.huge_cell) = true
  /\ is_finite (b Demo.huge_cell) = true
  /\ is_finite (c Demo.huge_cell) = true
  /\ written (print_structure Demo.huge_cell [] [] 1 "LTA" "merw" "out"
               Demo.w0) "out/LTA_merw_1.cif" =
     Some (title_block "LTA" +:+ date_line "2024-01-15" +:+ author_line "alice" +:+
           cell_lines (render_fixed 3) Demo.huge_cell +:+
           ("_cell_volume      inf" +:+ nl +:+ nl) +:+
           symmetry_block Demo.huge_cell +:+ loop_header)
  /\ has_3_fraction_digits
       (render_fixed 3 (a Demo.huge_cell * b Demo.huge_cell
                        * c Demo.huge_cell)%float) = false.
Proof. vm_compute. repeat split. Qed.

(** C8, amended: every double goes to the file through the fixed notation
    with precision 3, which gives every finite value exactly three fractional
    digits; the diagnostic stream keeps its precision and notation, and is
    not touched at all by a call that returns. *)
Theorem finite_doubles_have_3_fraction_digits (g : globals) (atoms : list atom)
    (Als : list Z) (struc : Z) (name_zeo name_alg out_name : string) (w : world) :
  (can_open w (file_name struc name_zeo name_alg out_name) = true ->
   Natoms g = Z.of_nat (length atoms) ->
   print_structure g atoms Als struc name_zeo name_alg out_name w =
   Returned (set_file w (file_name struc name_zeo name_alg out_name)
               (cif_text (render_fixed 3) g atoms Als name_zeo
                  (local_date w) (lookup_username w))))
  /\ (forall d, is_finite d = true ->
       has_3_fraction_digits (render_fixed 3 d) = true)
  /\ (forall w',
       final_world (print_structure g atoms Als struc name_zeo name_alg out_name w)
         = Some w' ->
       precision (cerr w') = precision (cerr w)
       /\ ffield (cerr w') = ffield (cerr w))
  /\ (forall w',
       print_structure g atoms Als struc name_zeo name_alg out_name w
         = Returned w' ->
       cerr w' = cerr w).
Proof.
  split; [|split; [|split]].
  - apply print_structure_returns.
  - apply render_fixed_3_shape.
  - intros w'. unfold print_structure.
    destruct (can_open w _).
    + destruct (write_cif _ _ _ _ _ _ _) as [[v fout]|e]; cbn [final_world].
      * intros [= <-]. split; reflexivity.
      * discriminate.
    + cbn [final_world]. intros [= <-]. split; reflexivity.
  - intros w'. unfold print_structure.
    destruct (can_open w _).
    + destruct (write_cif _ _ _ _ _ _ _) as [[v fout]|e].
      * intros [= <-]. reflexivity.
      * discriminate.
    + discriminate.
Qed.

(** * Further properties of the writer *)

(** ** The header, then the loop *)

Lemma runs_as_refl {A : Type} (k : M A) : runs_as k EmptyString k.
Proof. intros st _. now rewrite write_empty. Qed.

Lemma runs_as_bind {A B : Type} (c : M A) (f : A -> M B) v s1 s2 (k : M B) :
  appends c v s1 -> runs_as (f v) s2 k -> runs_as (c ≫= f) (s1 +:+ s2) k.
Proof.
  intros Hc Hf st Hst. unfold mbind, M_bind.
  rewrite (Hc st Hst), (Hf _ (write_formatted s1 st Hst)).
  now rewrite write_write.
Qed.

Lemma runs_as_eq {A : Type} (c k : M A) s s' :
  s = s' -> runs_as c s k -> runs_as c s' k.
Proof. now intros ->. Qed.

(** Whatever the array holds, the writer first writes the header and then
    runs the loop. *)
Lemma write_cif_header_then_loop (g : globals) (atoms : list atom) (Als : list Z)
    (name_zeo date user : string) :
  write_cif g atoms Als name_zeo date user ios_init =
  atoms_loop (Z.to_nat (Natoms g)) atoms Als 0 (-1) 1
    (write (header (render_fixed 3) g name_zeo date user) fout_ready).
Proof.
  unfold write_cif. rewrite run_setprecision_fixed.
  match goal with
  | |- ?c fout_ready = ?k (write ?s fout_ready) =>
      cut (runs_as c s k); [intros H; exact (H _ fout_ready_formatted)|]
  end.
  eapply runs_as_eq; cycle 1.
  - repeat (eapply runs_as_bind;
            [first [apply appends_str | apply appends_double | apply appends_endl]|]).
    apply runs_as_refl.
  - unfold header, cell_and_loop, title_block, date_line, author_line,
      cell_lines, volume_line, symmetry_block, loop_header.
    rewrite !append_assoc, append_empty_r. reflexivity.
Qed.

(** With more iterations than atoms left, the loop reads past the array. *)
Lemma atoms_loop_faults (Als : list Z) (atoms : list atom) :
  forall (l pre : list atom) (n : nat) (Tat alcount : Z) (st : ios),
  atoms = pre ++ l -> (length l < n)%nat -> formatted st ->
  atoms_loop n atoms Als (Z.of_nat (length pre)) Tat alcount st
  = Fault out_of_bounds.
Proof.
  induction l as [|p l IH]; intros pre n Tat alcount st Hat Hn Hst.
  - destruct n as [|n]; [cbn in Hn; lia|]. cbn [atoms_loop].
    rewrite Nat2Z.id, Hat, app_nil_r, lookup_ge_None_2 by lia. reflexivity.
  - destruct n as [|n]; [cbn in Hn; lia|]. cbn [length] in Hn.
    assert (Hp : atoms !! length pre = Some p)
      by (rewrite Hat; apply list_lookup_middle; reflexivity).
    assert (Hat' : atoms = (pre ++ [p]) ++ l) by (rewrite <- app_assoc; exact Hat).
    assert (Hnext : forall Tat' alcount' st', formatted st' ->
              atoms_loop n atoms Als (Z.of_nat (length pre) + 1) Tat' alcount' st'
              = Fault out_of_bounds).
    { intros Tat' alcount' st' Hst'.
      replace (Z.of_nat (length pre) + 1) with (Z.of_nat (length (pre ++ [p])))
        by (rewrite length_app; cbn; lia).
      apply IH; [exact Hat'|lia|exact Hst']. }
    cbn [atoms_loop]. rewrite Nat2Z.id, Hp. unfold mbind, M_bind.
    destruct (String.eqb (id p) "Si").
    + rewrite (scan_Als_text Als (Tat + 1) p alcount st Hst).
      destruct (bool_decide (Tat + 1 ∈ Als)).
      * change (0 =? 1) with false. cbv iota. cbn beta iota.
        apply Hnext. exact Hst.
      * change (1 =? 1) with true. cbv iota.
        rewrite (put_own_row_text p _ (write_formatted _ st Hst)).
        apply Hnext. exact Hst.
    + rewrite (put_own_row_text p st Hst). apply Hnext. exact Hst.
Qed.

Lemma write_cif_faults (g : globals) (atoms : list atom) (Als : list Z)
    (name_zeo date user : string) :
  Z.of_nat (length atoms) < Natoms g ->
  write_cif g atoms Als name_zeo date user ios_init = Fault out_of_bounds.
Proof.
  intros HN. rewrite write_cif_header_then_loop.
  apply (atoms_loop_faults Als atoms atoms []); [reflexivity|lia|].
  apply write_formatted, fout_ready_formatted.
Qed.

(** ** How a call ends *)

Lemma print_structure_Returned_inv (g : globals) (atoms : list atom)
    (Als : list Z) (struc : Z) (name_zeo name_alg out_name : string)
    (w w' : world) :
  print_structure g atoms Als struc name_zeo name_alg out_name w = Returned w' ->
  can_open w (file_name struc name_zeo name_alg out_name) = true
  /\ exists v fout,
       write_cif g atoms Als name_zeo (local_date w) (lookup_username w) ios_init
         = Ok (v, fout)
       /\ w' = set_file w (file_name struc name_zeo name_alg out_name) (buf fout).
Proof.
  unfold print_structure.
  destruct (can_open w _); [|discriminate].
  destruct (write_cif _ _ _ _ _ _ _) as [[v fout]|e]; [|discriminate].
  intros [= <-]. split; [reflexivity|]. now exists v, fout.
Qed.

Lemma print_structure_Returned_intro (g : globals) (atoms : list atom)
    (Als : list Z) (struc : Z) (name_zeo name_alg out_name : string)
    (w : world) v fout :
  can_open w (file_name struc name_zeo name_alg out_name) = true ->
  write_cif g atoms Als name_zeo (local_date w) (lookup_username w) ios_init
    = Ok (v, fout) ->
  print_structure g atoms Als struc name_zeo name_alg out_name w =
  Returned (set_file w (file_name struc name_zeo name_alg out_name) (buf fout)).
Proof. intros Hopen Hrun. unfold print_structure. now rewrite Hopen, Hrun. Qed.

(** X4: a call returns exactly when its file can be opened and [Natoms] is
    at most the length of the array; it reads past the array exactly when
    the file can be opened and [Natoms] is larger; it exits, with status 1,
    exactly when the file cannot be opened, whatever [Natoms] is.  No double
    is ever inserted before the fixed notation is set. *)
Theorem print_structure_outcomes (g : globals) (atoms : list atom)
    (Als : list Z) (struc : Z) (name_zeo name_alg out_name : string) (w : world) :
  ((exists w', print_structure g atoms Als struc name_zeo name_alg out_name w
               = Returned w')
   <-> can_open w (file_name struc name_zeo name_alg out_name) = true
       /\ Natoms g <= Z.of_nat (length atoms))
  /\ (print_structure g atoms Als struc name_zeo name_alg out_name w
        = Undefined out_of_bounds
      <-> can_open w (file_name struc name_zeo name_alg out_name) = true
          /\ Z.of_nat (length atoms) < Natoms g)
  /\ ((exists status w',
         print_structure g atoms Als struc name_zeo name_alg out_name w
         = Exited status w')
      <-> can_open w (file_name struc name_zeo name_alg out_name) = false)
  /\ (forall status w',
        print_structure g atoms Als struc name_zeo name_alg out_name w
        = Exited status w' -> status = 1)
  /\ print_structure g atoms Als struc name_zeo name_alg out_name w
     <> Undefined unmodelled_notation.
Proof.
  destruct (can_open w (file_name struc name_zeo name_alg out_name)) eqn:Hopen.
  - destruct (Z_le_gt_dec (Natoms g) (Z.of_nat (length atoms))) as [HN|HN].
    + rewrite (print_structure_returns_prefix _ _ _ _ _ _ _ _ Hopen HN).
      split; [|split; [|split; [|split]]].
      * split; [intros _; split; [reflexivity|exact HN]|intros _; eauto].
      * split; [discriminate|intros [_ H]; lia].
      * split; [intros (st & w' & H); discriminate|discriminate].
      * discriminate.
      * discriminate.
    + assert (Hrun : print_structure g atoms Als struc name_zeo name_alg out_name w
                     = Undefined out_of_bounds).
      { unfold print_structure. rewrite Hopen, write_cif_faults by lia.
        reflexivity. }
      rewrite Hrun. split; [|split; [|split; [|split]]].
      * split; [intros [w' H]; discriminate|intros [_ H]; lia].
      * split; [intros _; split; [reflexivity|lia]|reflexivity].
      * split; [intros (st & w' & H); discriminate|discriminate].
      * discriminate.
      * discriminate.
  - assert (Hrun : exists w', print_structure g atoms Als struc name_zeo name_alg
                                out_name w = Exited 1 w').
    { unfold print_structure. rewrite Hopen. eexists. reflexivity. }
    destruct Hrun as [w1 Hrun]. rewrite Hrun.
    split; [|split; [|split; [|split]]].
    + split; [intros [w' H]; discriminate|intros [H _]; discriminate].
    + split; [discriminate|intros [H _]; discriminate].
    + split; [reflexivity|intros _; eauto].
    + intros status w' [= <- _]. reflexivity.
    + discriminate.
Qed.

(** X5: with [Natoms] zero or negative the loop body never runs: the array
    is not read, whatever it holds, and the file is the header alone. *)
Theorem no_atoms_header_only (g : globals) (atoms : list atom)
    (Als : list Z) (struc : Z) (name_zeo name_alg out_name : string) (w : world) :
  can_open w (file_name struc name_zeo name_alg out_name) = true ->
  Natoms g <= 0 ->
  print_structure g atoms Als struc name_zeo name_alg out_name w =
  Returned (set_file w (file_name struc name_zeo name_alg out_name)
              (header (render_fixed 3) g name_zeo (local_date w)
                 (lookup_username w))).
Proof.
  intros Hopen HN. unfold print_structure.
  rewrite Hopen, write_cif_header_then_loop.
  replace (Z.to_nat (Natoms g)) with 0%nat by lia. reflexivity.
Qed.

(** X6: a call reads the first [Natoms] atoms only: it does what the call
    on that prefix does, and atoms appended to an array of at least [Natoms]
    atoms change nothing. *)
Theorem only_the_first_Natoms_atoms_are_read (g : globals) (atoms : list atom)
    (Als : list Z) (struc : Z) (name_zeo name_alg out_name : string) (w : world) :
  print_structure g atoms Als struc name_zeo name_alg out_name w =
  print_structure g (take (Z.to_nat (Natoms g)) atoms) Als struc name_zeo
    name_alg out_name w
  /\ forall more,
       Natoms g <= Z.of_nat (length atoms) ->
       print_structure g (atoms ++ more) Als struc name_zeo name_alg out_name w =
       print_structure g atoms Als struc name_zeo name_alg out_name w.
Proof.
  assert (Hpre : forall l : list atom,
            print_structure g l Als struc name_zeo name_alg out_name w =
            print_structure g (take (Z.to_nat (Natoms g)) l) Als struc name_zeo
              name_alg out_name w).
  { intros l. unfold print_structure.
    destruct (can_open w _); [|reflexivity].
    rewrite !write_cif_header_then_loop.
    pose proof (atoms_loop_take Als l (Z.to_nat (Natoms g)) 0 (-1) 1) as Htake.
    change (Z.of_nat 0) with 0 in Htake.
    change (0 + Z.to_nat (Natoms g))%nat with (Z.to_nat (Natoms g)) in Htake.
    now rewrite Htake. }
  split; [apply Hpre|].
  intros more HN. rewrite (Hpre (atoms ++ more)), (Hpre atoms).
  now rewrite take_app_le by lia.
Qed.

(** X7: [Als] counts as a set: two sequences with the same members, in any
    order and with any repetitions, give the same outcome, on every path. *)
Theorem Als_matters_as_a_set (g : globals) (atoms : list atom)
    (Als Als' : list Z) (struc : Z) (name_zeo name_alg out_name : string)
    (w : world) :
  (forall k, k ∈ Als <-> k ∈ Als') ->
  print_structure g atoms Als struc name_zeo name_alg out_name w =
  print_structure g atoms Als' struc name_zeo name_alg out_name w.
Proof.
  intros Hset.
  destruct (can_open w (file_name struc name_zeo name_alg out_name)) eqn:Hopen.
  - destruct (Z_le_gt_dec (Natoms g) (Z.of_nat (length atoms))) as [HN|HN].
    + rewrite !(print_structure_returns_prefix _ _ _ _ _ _ _ _ Hopen HN).
      do 2 f_equal. apply cif_text_ext. intros k _. apply Hset.
    + unfold print_structure. rewrite Hopen, !write_cif_faults by lia.
      reflexivity.
  - unfold print_structure. now rewrite Hopen.
Qed.

(** ** What a call leaves behind *)

(** X1: a call that returns changes the file at its path and nothing else:
    every other file, the diagnostic stream, the environment variables and
    the rest of the world are as before. *)
Theorem returning_call_touches_one_file (g : globals) (atoms : list atom)
    (Als : list Z) (struc : Z) (name_zeo name_alg out_name : string)
    (w w' : world) :
  print_structure g atoms Als struc name_zeo name_alg out_name w = Returned w' ->
  (forall path, path <> file_name struc name_zeo name_alg out_name ->
     files w' !! path = files w !! path)
  /\ is_Some (files w' !! file_name struc name_zeo name_alg out_name)
  /\ cerr w' = cerr w
  /\ environ w' = environ w
  /\ can_open w' = can_open w
  /\ local_date w' = local_date w.
Proof.
  intros Hrun.
  apply print_structure_Returned_inv in Hrun as (_ & v & fout & _ & ->).
  cbn [files cerr environ can_open local_date set_file].
  split; [|split; [|repeat split]].
  - intros path Hne. apply lookup_insert_ne. congruence.
  - rewrite lookup_insert_eq. eauto.
Qed.

(** X2: the file is truncated when opened, so a call repeated in the world
    it left, with the same arguments and on the same date, leaves that world
    as it is. *)
Theorem repeated_call_changes_nothing (g : globals) (atoms : list atom)
    (Als : list Z) (struc : Z) (name_zeo name_alg out_name : string)
    (w w' : world) :
  print_structure g atoms Als struc name_zeo name_alg out_name w = Returned w' ->
  print_structure g atoms Als struc name_zeo name_alg out_name w' = Returned w'.
Proof.
  intros Hrun.
  apply print_structure_Returned_inv in Hrun as (Hopen & v & fout & Hcif & ->).
  rewrite (print_structure_Returned_intro g atoms Als struc name_zeo name_alg
             out_name (set_file w _ (buf fout)) v fout Hopen Hcif).
  unfold set_file; cbn [files can_open cerr environ local_date].
  now rewrite insert_insert_eq.
Qed.

(** ** File names *)

Lemma append_inj_r (s1 s2 t : string) : s1 +:+ t = s2 +:+ t -> s1 = s2.
Proof.
  revert s2. induction s1 as [|ch s1 IH]; intros s2 H.
  - destruct s2 as [|ch2 s2]; [reflexivity|].
    apply (f_equal String.length) in H.
    change (String.length t = S (String.length (s2 +:+ t))) in H.
    rewrite length_append in H. lia.
  - destruct s2 as [|ch2 s2].
    + apply (f_equal String.length) in H.
      change (S (String.length (s1 +:+ t)) = String.length t) in H.
      rewrite length_append in H. lia.
    + change (String ch (s1 +:+ t) = String ch2 (s2 +:+ t)) in H.
      injection H as -> H. f_equal. now apply IH.
Qed.

Lemma string_of_pos_inj (p p' : positive) :
  NilZero.string_of_uint (Pos.to_uint p) = NilZero.string_of_uint (Pos.to_uint p') ->
  p = p'.
Proof.
  intros H. apply DecimalPos.Unsigned.to_uint_inj.
  pose proof (NilZero.usu _ (DecimalPos.Unsigned.to_uint_nonnil p)) as H1.
  pose proof (NilZero.usu _ (DecimalPos.Unsigned.to_uint_nonnil p')) as H2.
  rewrite H in H1. congruence.
Qed.

Lemma string_of_pos_head (p : positive) :
  exists ch s, NilZero.string_of_uint (Pos.to_uint p) = String ch s
               /\ is_digit ch = true /\ all_digits s = true.
Proof. apply (to_string_shape (Zpos p)). lia. Qed.

(** The decimal text determines the number. *)
Lemma to_string_inj (n m : Z) : to_string n = to_string m -> n = m.
Proof.
  destruct n as [|p|p], m as [|p'|p']; cbn [to_string]; intros H;
    try reflexivity.
  - exfalso. apply (DecimalPos.Unsigned.to_uint_nonzero p').
    pose proof (NilZero.usu _ (DecimalPos.Unsigned.to_uint_nonnil p')) as H1.
    rewrite <- H in H1. cbn in H1. congruence.
  - discriminate.
  - exfalso. apply (DecimalPos.Unsigned.to_uint_nonzero p).
    pose proof (NilZero.usu _ (DecimalPos.Unsigned.to_uint_nonnil p)) as H1.
    rewrite H in H1. cbn in H1. congruence.
  - f_equal. now apply string_of_pos_inj.
  - exfalso. destruct (string_of_pos_head p) as (ch & t & E & Hd & _).
    rewrite E in H. change ("-" +:+ ?u) with (String "-"%char u) in H.
    injection H as -> _. discriminate.
  - discriminate.
  - exfalso. destruct (string_of_pos_head p') as (ch & t & E & Hd & _).
    rewrite E in H. change ("-" +:+ ?u) with (String "-"%char u) in H.
    injection H as <- _. discriminate.
  - f_equal. apply string_of_pos_inj.
    change ("-" +:+ ?u) with (String "-"%char u) in H. now injection H.
Qed.

(** X3: with the same directory and names, two structure numbers give the
    same file name only if they are equal. *)
Theorem file_name_determines_struc (struc1 struc2 : Z)
    (name_zeo name_alg out_name : string) :
  file_name struc1 name_zeo name_alg out_name =
  file_name struc2 name_zeo name_alg out_name ->
  struc1 = struc2.
Proof.
  unfold file_name. intros H.
  repeat apply (inj (String.append _)) in H.
  apply append_inj_r in H. now apply to_string_inj.
Qed.

(** X8: two calls for different structure numbers, with the same directory
    and names, write two files: the second call leaves the file of the first
    as it is, and the two calls made in the other order end in the same
    world. *)
Theorem calls_for_two_structures_commute (g1 g2 : globals)
    (atoms1 atoms2 : list atom) (Als1 Als2 : list Z) (struc1 struc2 : Z)
    (name_zeo name_alg out_name : string) (w w1 w12 : world) :
  struc1 <> struc2 ->
  print_structure g1 atoms1 Als1 struc1 name_zeo name_alg out_name w
    = Returned w1 ->
  print_structure g2 atoms2 Als2 struc2 name_zeo name_alg out_name w1
    = Returned w12 ->
  files w12 !! file_name struc1 name_zeo name_alg out_name
    = files w1 !! file_name struc1 name_zeo name_alg out_name
  /\ is_Some (files w12 !! file_name struc1 name_zeo name_alg out_name)
  /\ is_Some (files w12 !! file_name struc2 name_zeo name_alg out_name)
  /\ exists w2,
       print_structure g2 atoms2 Als2 struc2 name_zeo name_alg out_name w
         = Returned w2
       /\ print_structure g1 atoms1 Als1 struc1 name_zeo name_alg out_name w2
          = Returned w12.
Proof.
  intros Hne H1 H2.
  assert (Hpath : file_name struc1 name_zeo name_alg out_name
                  <> file_name struc2 name_zeo name_alg out_name).
  { intros E. apply Hne. exact (file_name_determines_struc _ _ _ _ _ E). }
  apply print_structure_Returned_inv in H1 as (Hopen1 & v1 & fout1 & Hcif1 & ->).
  apply print_structure_Returned_inv in H2 as (Hopen2 & v2 & fout2 & Hcif2 & ->).
  cbn [files can_open cerr environ local_date set_file] in *.
  change (lookup_username (set_file w _ _)) with (lookup_username w) in Hcif2.
  cbn [local_date set_file] in Hcif2.
  split; [|split; [|split]].
  - apply lookup_insert_ne. congruence.
  - rewrite lookup_insert_ne, lookup_insert_eq by congruence. eauto.
  - rewrite lookup_insert_eq. eauto.
  - eexists. split.
    + exact (print_structure_Returned_intro g2 atoms2 Als2 struc2 name_zeo
               name_alg out_name w v2 fout2 Hopen2 Hcif2).
    + rewrite (print_structure_Returned_intro g1 atoms1 Als1 struc1 name_zeo
                 name_alg out_name (set_file w _ (buf fout2)) v1 fout1
                 Hopen1 Hcif1).
      unfold set_file; cbn [files can_open cerr environ local_date].
      f_equal. f_equal. apply insert_insert_ne. congruence.
Qed.

(** ** The user name *)

(** X9: USER is looked up first and wins over USERNAME; USERNAME is used
    only when USER is unset; a variable that is set is used as it is, also
    when it is empty. *)
Theorem USER_wins_over_USERNAME (g : globals) (atoms : list atom)
    (Als : list Z) (struc : Z) (name_zeo name_alg out_name : string)
    (w : world) (u : string) :
  getenv w "USER" = Some u
  \/ (getenv w "USER" = None /\ getenv w "USERNAME" = Some u) ->
  can_open w (file_name struc name_zeo name_alg out_name) = true ->
  Natoms g = Z.of_nat (length atoms) ->
  written (print_structure g atoms Als struc name_zeo name_alg out_name w)
    (file_name struc name_zeo name_alg out_name) =
  Some (title_block name_zeo +:+ date_line (local_date w) +:+
        ("_audit_author_name '" +:+ u +:+ "'" +:+ nl +:+ nl) +:+
        cell_and_loop (render_fixed 3) g +:+
        concat_rows (atom_rows (render_fixed 3) Als atoms)).
Proof.
  intros Henv Hopen HN.
  rewrite (print_structure_returns _ _ _ _ _ _ _ _ Hopen HN), written_set_file.
  rewrite cif_text_blocks.
  assert (lookup_username w = u) as ->.
  { unfold lookup_username. destruct Henv as [->|[-> ->]]; reflexivity. }
  reflexivity.
Qed.

(** ** The counters *)

Lemma subst_before_le_Als (Als : list Z) (atoms : list atom) (i : nat) :
  subst_before Als atoms i <= Z.of_nat (length Als).
Proof.
  rewrite subst_before_positions.
  set (l := filter (fun k => Z.of_nat k ∈ Als)
              (seq 0 (Z.to_nat (si_before atoms i)))).
  assert (Hsub : Z.of_nat <$> l ⊆+ Als).
  { apply NoDup_submseteq.
    - apply (NoDup_fmap_2 Z.of_nat), NoDup_filter, NoDup_seq.
    - intros k Hk. apply list_elem_of_fmap in Hk as (n & -> & Hn).
      now apply list_elem_of_filter in Hn as [Hn _]. }
  apply submseteq_length in Hsub. rewrite length_fmap in Hsub. lia.
Qed.

(** X10: when the writer's stream computation ends normally, [Tat] is one
    less than the number of Si atoms among the [Natoms] read, so between -1
    and [Natoms - 1]; [alcount] is between 1 and [Tat + 2], and at most one
    more than the length of [Als]; the stream is left in fixed notation with
    precision 3 and no pending width.  No counter leaves the range of [int]
    unless the array has [INT_MAX] atoms. *)
Theorem counters_at_the_end (g : globals) (atoms : list atom) (Als : list Z)
    (name_zeo date user : string) (Tat alcount : Z) (st : ios) :
  write_cif g atoms Als name_zeo date user ios_init = Ok ((Tat, alcount), st) ->
  Tat = si_count (take (Z.to_nat (Natoms g)) atoms) - 1
  /\ -1 <= Tat < Z.max 0 (Natoms g)
  /\ 1 <= alcount <= Tat + 2
  /\ alcount <= 1 + Z.of_nat (length Als)
  /\ formatted st.
Proof.
  intros Hrun.
  destruct (Z_le_gt_dec (Natoms g) (Z.of_nat (length atoms))) as [HN|HN];
    [|rewrite write_cif_faults in Hrun by lia; discriminate].
  rewrite (write_cif_prefix_text _ _ _ _ _ _ HN) in Hrun. cbv zeta in Hrun.
  injection Hrun as <- <- <-.
  set (atoms' := take (Z.to_nat (Natoms g)) atoms).
  pose proof (counters_stay_in_range Als atoms') as (H1 & H2 & H3).
  pose proof (subst_before_le_Als Als atoms' (length atoms')) as H4.
  assert (Hlen : length atoms' = Z.to_nat (Natoms g))
    by (subst atoms'; rewrite length_take; lia).
  rewrite Hlen in H1, H3.
  split; [reflexivity|split; [lia|split; [lia|split; [lia|]]]].
  apply write_formatted, fout_ready_formatted.
Qed.

(** ** Rows and the length of the array *)

Lemma subst_before_app (Als : list Z) (l1 l2 : list atom) (i : nat) :
  (i <= length l1)%nat ->
  subst_before Als (l1 ++ l2) i = subst_before Als l1 i.
Proof.
  intros Hi. rewrite !subst_before_positions. unfold si_before.
  now rewrite take_app_le by lia.
Qed.

Lemma row_at_app (r : float -> string) (Als : list Z) (l1 l2 : list atom)
    (i : nat) (p : atom) :
  l1 !! i = Some p ->
  row_at r Als (l1 ++ l2) i p = row_at r Als l1 i p.
Proof.
  intros Hp. pose proof (lookup_lt_Some _ _ _ Hp) as Hi.
  unfold row_at, substituted.
  rewrite lookup_app_l, Hp by exact Hi.
  rewrite subst_before_app by lia.
  unfold si_before. now rewrite take_app_le by lia.
Qed.

Lemma atom_rows_take (r : float -> string) (Als : list Z) (atoms : list atom)
    (n : nat) :
  atom_rows r Als (take n atoms) = take n (atom_rows r Als atoms).
Proof.
  destruct (Nat.le_gt_cases (length atoms) n) as [Hge|Hlt].
  { rewrite !take_ge; [reflexivity| |exact Hge].
    unfold atom_rows. now rewrite length_imap. }
  rewrite <- (take_drop n atoms) at 2. unfold atom_rows at 2.
  rewrite imap_app, take_app_length'.
  - unfold atom_rows. apply imap_ext. intros i p Hp.
    rewrite (take_drop n atoms).
    rewrite <- (take_drop n atoms) at 2. symmetry. now apply row_at_app.
  - rewrite length_imap, length_take. lia.
Qed.

(** X11: the row of an atom depends on the atoms before it and on itself
    only: with a smaller [Natoms], the file holds the same header and the
    first rows of the file written with the larger one. *)
Theorem smaller_Natoms_gives_the_first_rows (g : globals) (atoms : list atom)
    (Als : list Z) (struc : Z) (name_zeo name_alg out_name : string)
    (w : world) (n n' : nat) :
  can_open w (file_name struc name_zeo name_alg out_name) = true ->
  (n <= n' <= length atoms)%nat ->
  let rows := atom_rows (render_fixed 3) Als (take n' atoms) in
  length rows = n'
  /\ written (print_structure (set_Natoms g (Z.of_nat n')) atoms Als struc
                name_zeo name_alg out_name w)
       (file_name struc name_zeo name_alg out_name) =
     Some (header (render_fixed 3) g name_zeo (local_date w) (lookup_username w)
           +:+ concat_rows rows)
  /\ written (print_structure (set_Natoms g (Z.of_nat n)) atoms Als struc
                name_zeo name_alg out_name w)
       (file_name struc name_zeo name_alg out_name) =
     Some (header (render_fixed 3) g name_zeo (local_date w) (lookup_username w)
           +:+ concat_rows (take n rows)).
Proof.
  intros Hopen Hn rows. subst rows.
  split; [|split].
  - unfold atom_rows. rewrite length_imap, length_take. lia.
  - rewrite (print_structure_returns_prefix (set_Natoms g (Z.of_nat n')) atoms
               Als struc name_zeo name_alg out_name w Hopen)
      by (cbn [Natoms set_Natoms]; lia).
    rewrite written_set_file. cbn [Natoms set_Natoms]. now rewrite Nat2Z.id.
  - rewrite (print_structure_returns_prefix (set_Natoms g (Z.of_nat n)) atoms
               Als struc name_zeo name_alg out_name w Hopen)
      by (cbn [Natoms set_Natoms]; lia).
    rewrite written_set_file. cbn [Natoms set_Natoms]. rewrite Nat2Z.id.
    rewrite <- atom_rows_take, take_take.
    now replace (n `min` n')%nat with n by lia.
Qed.

(** ** The columns of an aluminium row *)

Lemma length_spaces (k : nat) : String.length (spaces k) = k.
Proof. induction k as [|k IH]; [reflexivity|]. cbn. now rewrite IH. Qed.

Lemma Al_row_relabelled (n : Z) (p : atom) :
  Al_row (render_fixed 3) n p = own_row (render_fixed 3) (as_aluminium n p)
  <-> String.length (render_fixed 3 (x p)) = 5%nat.
Proof.
  unfold Al_row, own_row, as_aluminium, row_tail.
  cbn [id at_ x y z q].
  set (X := render_fixed 3 (x p) +:+
            pad_left 10 (render_fixed 3 (y p)) +:+
            pad_left 10 (render_fixed 3 (z p)) +:+
            pad_left 10 (render_fixed 3 (q p)) +:+ nl).
  change ("Al" +:+ to_string n +:+ "        Al     " +:+ X)
    with ("Al" +:+ to_string n +:+ "        Al" +:+ spaces 5 +:+ X).
  change (pad_left 10 "Al") with "        Al"%string.
  set (L := String.length (render_fixed 3 (x p))).
  change (pad_left 10 (render_fixed 3 (x p)))
    with (spaces (10 - L) +:+ render_fixed 3 (x p)).
  rewrite !append_assoc. fold X.
  split.
  - intros H. repeat apply (inj (String.append _)) in H.
    apply append_inj_r in H. apply (f_equal String.length) in H.
    rewrite !length_spaces in H. lia.
  - intros ->. reflexivity.
Qed.

(** X12: the aluminium row of an atom is the ordinary row of that atom
    relabelled (label Al followed by the number, type symbol Al) exactly
    when its x coordinate is rendered in five characters; with any other
    width the x column of the aluminium row is out of line, because line 85
    writes five spaces there instead of setting a field width. *)
Theorem Al_row_is_relabelled_row_iff (n : Z) (p : atom) (st : ios) :
  formatted st ->
  (put_Al_row n p st = put_own_row (as_aluminium n p) st
   <-> String.length (render_fixed 3 (x p)) = 5%nat).
Proof.
  intros Hst.
  rewrite (put_Al_row_text n p st Hst),
    (put_own_row_text (as_aluminium n p) st Hst).
  rewrite <- Al_row_relabelled. split.
  - intros [= H]. exact (inj (String.append (buf st)) _ _ H).
  - now intros ->.
Qed.

(** ** The numbers of the aluminium rows *)

Lemma subst_before_mono (Als : list Z) (atoms : list atom) (i j : nat) :
  (i <= j)%nat -> subst_before Als atoms i <= subst_before Als atoms j.
Proof.
  induction 1 as [|j Hij IH]; [lia|].
  rewrite subst_before_S. destruct (substituted Als atoms j); lia.
Qed.

(** X13: the number in the label of an aluminium row is one more than the
    number of Si positions below the atom's own that occur in [Als]: the
    numbers follow the order of the atoms, not the order of [Als], they
    increase strictly down the file, and no two aluminium rows share a
    label. *)
Theorem Al_numbers_increase (g : globals) (atoms : list atom) (Als : list Z)
    (struc : Z) (name_zeo name_alg out_name : string) (w : world)
    (i j : nat) (pi pj : atom) :
  can_open w (file_name struc name_zeo name_alg out_name) = true ->
  Natoms g = Z.of_nat (length atoms) ->
  (i < j)%nat ->
  atoms !! i = Some pi -> is_Si pi = true -> si_before atoms i ∈ Als ->
  atoms !! j = Some pj -> is_Si pj = true -> si_before atoms j ∈ Als ->
  let number (k : nat) :=
    1 + Z.of_nat (length (filter (fun v => Z.of_nat v ∈ Als)
                            (seq 0 (Z.to_nat (si_before atoms k))))) in
  let rows := atom_rows (render_fixed 3) Als atoms in
  written (print_structure g atoms Als struc name_zeo name_alg out_name w)
    (file_name struc name_zeo name_alg out_name) =
  Some (header (render_fixed 3) g name_zeo (local_date w) (lookup_username w)
        +:+ concat_rows rows)
  /\ rows !! i = Some (Al_row (render_fixed 3) (number i) pi)
  /\ rows !! j = Some (Al_row (render_fixed 3) (number j) pj)
  /\ 1 <= number i < number j
  /\ "Al" +:+ to_string (number i) <> "Al" +:+ to_string (number j).
Proof.
  intros Hopen HN Hij Hi HSi Hin Hj HSj Hjn number rows. subst rows.
  assert (Hsub : forall k p, atoms !! k = Some p -> is_Si p = true ->
            si_before atoms k ∈ Als -> substituted Als atoms k = true).
  { intros k p Hk HSk Hkn. unfold substituted. rewrite Hk, HSk. cbn [andb].
    now apply bool_decide_eq_true_2. }
  assert (Hnum : forall k, number k = 1 + subst_before Als atoms k).
  { intros k. subst number. cbv beta. now rewrite subst_before_positions. }
  assert (Hlt : number i < number j).
  { rewrite !Hnum.
    pose proof (subst_before_mono Als atoms (S i) j ltac:(lia)) as Hm.
    rewrite subst_before_S, (Hsub i pi Hi HSi Hin) in Hm. lia. }
  split; [|split; [|split; [|split]]].
  - now rewrite (print_structure_returns _ _ _ _ _ _ _ _ Hopen HN),
      written_set_file.
  - unfold atom_rows. rewrite list_lookup_imap, Hi. cbn [fmap option_fmap option_map].
    unfold row_at. now rewrite (Hsub i pi Hi HSi Hin), Hnum.
  - unfold atom_rows. rewrite list_lookup_imap, Hj. cbn [fmap option_fmap option_map].
    unfold row_at. now rewrite (Hsub j pj Hj HSj Hjn), Hnum.
  - split; [|exact Hlt]. rewrite Hnum.
    pose proof (subst_before_mono Als atoms 0 i ltac:(lia)) as Hm.
    change (subst_before Als atoms 0) with 0 in Hm. lia.
  - intros E. apply (inj (String.append _)) in E.
    apply to_string_inj in E. lia.
Qed.

(** * The theorems at concrete inputs *)

Lemma empty_Als_rows_unchanged_witness :
  print_structure Demo.cell Demo.atoms [] 7 "MFI" "merw" "out" Demo.w0 =
    Returned (set_file Demo.w0 (file_name 7 "MFI" "merw" "out")
      (header (render_fixed 3) Demo.cell "MFI" (local_date Demo.w0) (lookup_username
        Demo.w0)
       +:+ concat_rows (own_row (render_fixed 3) <$> Demo.atoms)))
  /\ Z.of_nat (length (own_row (render_fixed 3) <$> Demo.atoms)) = Natoms Demo.cell.
Proof.
  apply (empty_Als_rows_unchanged
           Demo.cell Demo.atoms 7 "MFI" "merw" "out" Demo.w0);
    [reflexivity | reflexivity].
Defined.

Lemma Als_0_2_relabels_first_and_third_Si_witness :
  print_structure Demo.cell5 Demo.atoms5 [0; 2] 7 "MFI" "merw" "out" Demo.w0 =
    Returned (set_file Demo.w0 (file_name 7 "MFI" "merw" "out")
      (header (render_fixed 3) Demo.cell5 "MFI" (local_date Demo.w0) (lookup_username
        Demo.w0)
       +:+ concat_rows
             (imap (fun i p =>
                if is_Si p && (si_before Demo.atoms5 i =? 0)
                then "Al1        Al     " +:+ render_fixed 3 (x p)
                       +:+ row_tail (render_fixed 3) p
                else if is_Si p && (si_before Demo.atoms5 i =? 2)
                then "Al2        Al     " +:+ render_fixed 3 (x p)
                       +:+ row_tail (render_fixed 3) p
                else own_row (render_fixed 3) p) Demo.atoms5)))
  /\ (exists i p, Demo.atoms5 !! i = Some p /\ is_Si p = true /\ si_before Demo.atoms5 i =
    0)
  /\ (exists i p, Demo.atoms5 !! i = Some p /\ is_Si p = true /\ si_before Demo.atoms5 i =
    2)
  /\ (forall Als, (forall k, k ∈ Als <-> k = 0 \/ k = 2) ->
      print_structure Demo.cell5 Demo.atoms5 Als 7 "MFI" "merw" "out" Demo.w0 =
      print_structure Demo.cell5 Demo.atoms5 [0; 2] 7 "MFI" "merw" "out" Demo.w0).
Proof.
  apply (Als_0_2_relabels_first_and_third_Si
           Demo.cell5 Demo.atoms5 7 "MFI" "merw" "out" Demo.w0);
    [reflexivity | reflexivity | vm_compute; discriminate].
Defined.

Lemma duplicate_Als_one_row_per_atom_witness :
  print_structure Demo.cell5 Demo.atoms5 [2; 0; 2] 7 "MFI" "merw" "out" Demo.w0 =
    Returned (set_file Demo.w0 (file_name 7 "MFI" "merw" "out")
      (header (render_fixed 3) Demo.cell5 "MFI" (local_date Demo.w0) (lookup_username
        Demo.w0)
       +:+ concat_rows (atom_rows (render_fixed 3) [2; 0; 2] Demo.atoms5)))
  /\ length (atom_rows (render_fixed 3) [2; 0; 2] Demo.atoms5) = length Demo.atoms5
  /\ (forall i p, Demo.atoms5 !! i = Some p ->
        atom_rows (render_fixed 3) [2; 0; 2] Demo.atoms5 !! i =
        Some (if substituted [2; 0; 2] Demo.atoms5 i
              then Al_row (render_fixed 3) (1 + subst_before [2; 0; 2] Demo.atoms5 i) p
              else own_row (render_fixed 3) p))
  /\ print_structure Demo.cell5 Demo.atoms5 (remove_dups [2; 0; 2]) 7 "MFI" "merw" "out"
    Demo.w0 =
     print_structure Demo.cell5 Demo.atoms5 [2; 0; 2] 7 "MFI" "merw" "out" Demo.w0
  /\ (forall Tat p alcount st, formatted st ->
        scan_Als [2; 0; 2] Tat p 1 alcount st =
        if bool_decide (Tat ∈ [2; 0; 2])
        then Ok ((0, alcount + 1), write (Al_row (render_fixed 3) alcount p) st)
        else Ok ((1, alcount), st))
  /\ (exists st,
        write_cif Demo.cell5 Demo.atoms5 [2; 0; 2] "MFI" (local_date Demo.w0)
          (lookup_username Demo.w0) ios_init =
        Ok ((si_count Demo.atoms5 - 1, 1 + subst_before [2; 0; 2] Demo.atoms5 (length
          Demo.atoms5)), st))
  /\ subst_before [2; 0; 2] Demo.atoms5 (length Demo.atoms5) =
     Z.of_nat (length (filter (fun k => Z.of_nat k ∈ [2; 0; 2])
                         (seq 0 (Z.to_nat (si_count Demo.atoms5))))).
Proof.
  apply (duplicate_Als_one_row_per_atom
           Demo.cell5 Demo.atoms5 [2; 0; 2] 7 "MFI" "merw" "out" Demo.w0);
    [reflexivity | reflexivity].
Defined.

Lemma out_of_range_index_is_inert_witness :
  (exists w', print_structure Demo.cell5 Demo.atoms5 [1; 3; -1] 7 "MFI" "merw" "out"
    Demo.w0
              = Returned w')
  /\ print_structure Demo.cell5 Demo.atoms5 [1; 3; -1] 7 "MFI" "merw" "out" Demo.w0 =
     print_structure Demo.cell5 Demo.atoms5 (filter (fun v => v <> 3) [1; 3; -1])
       7 "MFI" "merw" "out" Demo.w0
  /\ (forall i, substituted [1; 3; -1] Demo.atoms5 i = true -> si_before Demo.atoms5 i <>
    3).
Proof.
  apply (out_of_range_index_is_inert
           Demo.cell5 Demo.atoms5 [1; 3; -1] 3 7 "MFI" "merw" "out" Demo.w0);
    [reflexivity | reflexivity | reflexivity | right; vm_compute; discriminate].
Defined.

Lemma cell_volume_is_plain_product_witness :
  written (print_structure Demo.cell Demo.atoms [1] 7 "MFI" "merw" "out" Demo.w0)
    (file_name 7 "MFI" "merw" "out") =
  Some (title_block "MFI" +:+ date_line (local_date Demo.w0) +:+
        author_line (lookup_username Demo.w0) +:+
        ("_cell_length_a    " +:+ render_fixed 3 (a Demo.cell) +:+ nl +:+
         "_cell_length_b    " +:+ render_fixed 3 (b Demo.cell) +:+ nl +:+
         "_cell_length_c    " +:+ render_fixed 3 (c Demo.cell) +:+ nl +:+
         "_cell_angle_alpha " +:+ render_fixed 3 (alpha Demo.cell) +:+ nl +:+
         "_cell_angle_beta  " +:+ render_fixed 3 (beta Demo.cell) +:+ nl +:+
         "_cell_angle_gamma " +:+ render_fixed 3 (gama Demo.cell) +:+ nl +:+
         "_cell_volume      " +:+ render_fixed 3 (a Demo.cell * b Demo.cell * c
           Demo.cell)%float
           +:+ nl +:+ nl) +:+
        symmetry_block Demo.cell +:+ loop_header +:+
        concat_rows (atom_rows (render_fixed 3) [1]
                       (take (Z.to_nat (Natoms Demo.cell)) Demo.atoms))).
Proof.
  apply (cell_volume_is_plain_product
           Demo.cell Demo.atoms [1] 7 "MFI" "merw" "out" Demo.w0);
    [reflexivity | vm_compute; discriminate].
Defined.

Lemma open_failure_exits_with_1_witness :
  exists w',
    print_structure Demo.cell Demo.atoms [1] 7 "MFI" "merw" "/missing/out" Demo.w0 =
      Exited 1 w'
    /\ buf (cerr w') =
       buf (cerr Demo.w0) +:+ pad_left (width (cerr Demo.w0)) "unable to open file " +:+
       ("/missing/out" +:+ "/" +:+ "MFI" +:+ "_" +:+ "merw" +:+ "_" +:+
        to_string 7 +:+ ".cif") +:+ " for writing" +:+ nl
    /\ files w' = files Demo.w0.
Proof.
  apply (open_failure_exits_with_1
           Demo.cell Demo.atoms [1] 7 "MFI" "merw" "/missing/out" Demo.w0);
    [reflexivity].
Defined.

Lemma missing_username_placeholder_witness :
  print_structure Demo.cell Demo.atoms [1] 7 "MFI" "merw" "out" Demo.w_anonymous =
    Returned (set_file Demo.w_anonymous (file_name 7 "MFI" "merw" "out")
      (title_block "MFI" +:+ date_line (local_date Demo.w_anonymous) +:+
       ("_audit_author_name 'unknown_user'" +:+ nl +:+ nl) +:+
       cell_and_loop (render_fixed 3) Demo.cell +:+
       concat_rows (atom_rows (render_fixed 3) [1] Demo.atoms)))
  /\ forall w2,
       can_open w2 (file_name 7 "MFI" "merw" "out") = true ->
       local_date w2 = local_date Demo.w_anonymous ->
       print_structure Demo.cell Demo.atoms [1] 7 "MFI" "merw" "out" w2 =
       Returned (set_file w2 (file_name 7 "MFI" "merw" "out")
         (title_block "MFI" +:+ date_line (local_date Demo.w_anonymous) +:+
          ("_audit_author_name '" +:+ lookup_username w2 +:+ "'" +:+ nl +:+ nl) +:+
          cell_and_loop (render_fixed 3) Demo.cell +:+
          concat_rows (atom_rows (render_fixed 3) [1] Demo.atoms))).
Proof.
  apply (missing_username_placeholder
           Demo.cell Demo.atoms [1] 7 "MFI" "merw" "out" Demo.w_anonymous);
    [reflexivity | reflexivity | reflexivity | reflexivity].
Defined.

Lemma same_inputs_same_file_except_date_witness :
  let rest :=
    author_line (lookup_username Demo.w0) +:+ cell_and_loop (render_fixed 3) Demo.cell +:+
    concat_rows (atom_rows (render_fixed 3) [1] Demo.atoms) in
  written (print_structure Demo.cell Demo.atoms [1] 7 "MFI" "merw" "out" Demo.w0)
    (file_name 7 "MFI" "merw" "out") =
    Some (title_block "MFI" +:+
          ("_audit_creation_date " +:+ local_date Demo.w0 +:+ nl) +:+ rest)
  /\ written (print_structure Demo.cell Demo.atoms [1] 7 "MFI" "merw" "out"
    Demo.w_next_day)
       (file_name 7 "MFI" "merw" "out") =
     Some (title_block "MFI" +:+
           ("_audit_creation_date " +:+ local_date Demo.w_next_day +:+ nl) +:+ rest)
  /\ forall w1' date,
       print_structure Demo.cell Demo.atoms [1] 7 "MFI" "merw" "out" Demo.w0
         = Returned w1' ->
       written (print_structure Demo.cell Demo.atoms [1] 7 "MFI" "merw" "out"
                  (set_date w1' date))
         (file_name 7 "MFI" "merw" "out") =
       Some (title_block "MFI" +:+
             ("_audit_creation_date " +:+ date +:+ nl) +:+ rest).
Proof.
  apply (same_inputs_same_file_except_date
           Demo.cell Demo.atoms [1] 7 "MFI" "merw" "out" Demo.w0 Demo.w_next_day);
    [reflexivity | reflexivity | reflexivity | reflexivity].
Defined.

Lemma Tatoms_is_never_read_witness :
  (forall t, print_structure (set_Tatoms Demo.cell t) Demo.atoms [1; 4] 7 "MFI" "merw"
               "out" Demo.w0
             = print_structure Demo.cell Demo.atoms [1; 4] 7 "MFI" "merw" "out" Demo.w0)
  /\ print_structure Demo.cell Demo.atoms [1; 4] 7 "MFI" "merw" "out" Demo.w0 =
     Returned (set_file Demo.w0 (file_name 7 "MFI" "merw" "out")
       (header (render_fixed 3) Demo.cell "MFI" (local_date Demo.w0)
          (lookup_username Demo.w0)
        +:+ concat_rows
              (imap (fun i p =>
                 if is_Si p && bool_decide (si_before Demo.atoms i ∈ [1; 4])
                 then Al_row (render_fixed 3) (1 + subst_before [1; 4] Demo.atoms i) p
                 else own_row (render_fixed 3) p) Demo.atoms)))
  /\ print_structure Demo.cell Demo.atoms [1; 4] 7 "MFI" "merw" "out" Demo.w0 =
     print_structure Demo.cell Demo.atoms (filter (fun v => v <> 4) [1; 4])
       7 "MFI" "merw" "out" Demo.w0
  /\ (exists i p, Demo.atoms !! i = Some p /\ si_before Demo.atoms i = 1
                  /\ substituted [1; 4] Demo.atoms i = true).
Proof.
  destruct (Tatoms_is_never_read
              Demo.cell Demo.atoms [1; 4] 7 "MFI" "merw" "out" Demo.w0)
    as (Hnever & Hrows & Hinert & Hmatch).
  split; [exact Hnever|split; [exact (Hrows eq_refl eq_refl)|split]].
  - apply (Hinert 4); [vm_compute; discriminate|reflexivity|reflexivity].
  - apply (Hmatch 1); [apply list_elem_of_here|vm_compute; split; congruence].
Defined.

Lemma finite_doubles_have_3_fraction_digits_witness :
  print_structure Demo.cell Demo.atoms [1] 7 "MFI" "merw" "out" Demo.w0 =
  Returned (set_file Demo.w0 (file_name 7 "MFI" "merw" "out")
              (cif_text (render_fixed 3) Demo.cell Demo.atoms [1] "MFI"
                 (local_date Demo.w0) (lookup_username Demo.w0)))
  /\ has_3_fraction_digits (render_fixed 3 (c Demo.cell)) = true
  /\ (precision (cerr (set_file Demo.w0 (file_name 7 "MFI" "merw" "out")
                         (cif_text (render_fixed 3) Demo.cell Demo.atoms [1] "MFI"
                            (local_date Demo.w0) (lookup_username Demo.w0))))
      = precision (cerr Demo.w0)
      /\ ffield (cerr (set_file Demo.w0 (file_name 7 "MFI" "merw" "out")
                         (cif_text (render_fixed 3) Demo.cell Demo.atoms [1] "MFI"
                            (local_date Demo.w0) (lookup_username Demo.w0))))
         = ffield (cerr Demo.w0)).
Proof.
  destruct (finite_doubles_have_3_fraction_digits
              Demo.cell Demo.atoms [1] 7 "MFI" "merw" "out" Demo.w0)
    as (Hrun & Hshape & Hcerr & _).
  split; [exact (Hrun eq_refl eq_refl)|split].
  - apply Hshape. reflexivity.
  - apply Hcerr. rewrite (Hrun eq_refl eq_refl). reflexivity.
Defined.

(** * The further properties at concrete inputs *)

Lemma returning_call_touches_one_file_witness :
  let w' := set_file Demo.w0 (file_name 7 "MFI" "merw" "out")
              (cif_text (render_fixed 3) Demo.cell Demo.atoms [1] "MFI"
                 (local_date Demo.w0) (lookup_username Demo.w0)) in
  (forall path, path <> file_name 7 "MFI" "merw" "out" ->
     files w' !! path = files Demo.w0 !! path)
  /\ is_Some (files w' !! file_name 7 "MFI" "merw" "out")
  /\ cerr w' = cerr Demo.w0
  /\ environ w' = environ Demo.w0
  /\ can_open w' = can_open Demo.w0
  /\ local_date w' = local_date Demo.w0.
Proof.
  exact (returning_call_touches_one_file
           Demo.cell Demo.atoms [1] 7 "MFI" "merw" "out" Demo.w0 _
           (print_structure_returns Demo.cell Demo.atoms [1] 7 "MFI" "merw" "out"
              Demo.w0 eq_refl eq_refl)).
Defined.

Lemma repeated_call_changes_nothing_witness :
  let w' := set_file Demo.w0 (file_name 7 "MFI" "merw" "out")
              (cif_text (render_fixed 3) Demo.cell Demo.atoms [1] "MFI"
                 (local_date Demo.w0) (lookup_username Demo.w0)) in
  print_structure Demo.cell Demo.atoms [1] 7 "MFI" "merw" "out" w' = Returned w'.
Proof.
  exact (repeated_call_changes_nothing
           Demo.cell Demo.atoms [1] 7 "MFI" "merw" "out" Demo.w0 _
           (print_structure_returns Demo.cell Demo.atoms [1] 7 "MFI" "merw" "out"
              Demo.w0 eq_refl eq_refl)).
Defined.

Lemma file_name_determines_struc_witness :
  file_name 7 "MFI" "merw" "out" = file_name (3 + 4) "MFI" "merw" "out"
  /\ 7 = 3 + 4.
Proof.
  split; [reflexivity|].
  apply (file_name_determines_struc 7 (3 + 4) "MFI" "merw" "out"). reflexivity.
Defined.

Lemma no_atoms_header_only_witness :
  print_structure globals_init Demo.atoms [1] 7 "MFI" "merw" "out" Demo.w0 =
  Returned (set_file Demo.w0 (file_name 7 "MFI" "merw" "out")
              (header (render_fixed 3) globals_init "MFI" (local_date Demo.w0)
                 (lookup_username Demo.w0))).
Proof.
  apply (no_atoms_header_only
           globals_init Demo.atoms [1] 7 "MFI" "merw" "out" Demo.w0);
    [reflexivity | vm_compute; discriminate].
Defined.

Lemma only_the_first_Natoms_atoms_are_read_witness :
  print_structure Demo.cell Demo.atoms5 [1] 7 "MFI" "merw" "out" Demo.w0 =
  print_structure Demo.cell (take (Z.to_nat (Natoms Demo.cell)) Demo.atoms5) [1] 7
    "MFI" "merw" "out" Demo.w0
  /\ print_structure Demo.cell (Demo.atoms ++ Demo.atoms5) [1] 7 "MFI" "merw" "out"
       Demo.w0 =
     print_structure Demo.cell Demo.atoms [1] 7 "MFI" "merw" "out" Demo.w0.
Proof.
  split.
  - exact (proj1 (only_the_first_Natoms_atoms_are_read
                    Demo.cell Demo.atoms5 [1] 7 "MFI" "merw" "out" Demo.w0)).
  - exact (proj2 (only_the_first_Natoms_atoms_are_read
                    Demo.cell Demo.atoms [1] 7 "MFI" "merw" "out" Demo.w0)
             Demo.atoms5 ltac:(vm_compute; discriminate)).
Defined.

Lemma Als_matters_as_a_set_witness :
  print_structure Demo.cell5 Demo.atoms5 [0; 2; 2] 7 "MFI" "merw" "out" Demo.w0 =
  print_structure Demo.cell5 Demo.atoms5 [2; 0] 7 "MFI" "merw" "out" Demo.w0.
Proof.
  apply (Als_matters_as_a_set
           Demo.cell5 Demo.atoms5 [0; 2; 2] [2; 0] 7 "MFI" "merw" "out" Demo.w0).
  intros k. rewrite !elem_of_cons, !elem_of_nil. tauto.
Defined.

Lemma calls_for_two_structures_commute_witness :
  let f7 := file_name 7 "MFI" "merw" "out" in
  let f8 := file_name 8 "MFI" "merw" "out" in
  let w1 := set_file Demo.w0 f7
              (cif_text (render_fixed 3) Demo.cell Demo.atoms [1] "MFI"
                 (local_date Demo.w0) (lookup_username Demo.w0)) in
  let w12 := set_file w1 f8
               (cif_text (render_fixed 3) Demo.cell5 Demo.atoms5 [0; 2] "MFI"
                  (local_date w1) (lookup_username w1)) in
  files w12 !! f7 = files w1 !! f7
  /\ is_Some (files w12 !! f7)
  /\ is_Some (files w12 !! f8)
  /\ exists w2,
       print_structure Demo.cell5 Demo.atoms5 [0; 2] 8 "MFI" "merw" "out" Demo.w0
         = Returned w2
       /\ print_structure Demo.cell Demo.atoms [1] 7 "MFI" "merw" "out" w2
          = Returned w12.
Proof.
  exact (calls_for_two_structures_commute
           Demo.cell Demo.cell5 Demo.atoms Demo.atoms5 [1] [0; 2] 7 8
           "MFI" "merw" "out" Demo.w0 _ _
           ltac:(discriminate)
           (print_structure_returns Demo.cell Demo.atoms [1] 7 "MFI" "merw" "out"
              Demo.w0 eq_refl eq_refl)
           (print_structure_returns Demo.cell5 Demo.atoms5 [0; 2] 8 "MFI" "merw"
              "out"
              (set_file Demo.w0 (file_name 7 "MFI" "merw" "out")
                 (cif_text (render_fixed 3) Demo.cell Demo.atoms [1] "MFI"
                    (local_date Demo.w0) (lookup_username Demo.w0)))
              eq_refl eq_refl)).
Defined.

Lemma USER_wins_over_USERNAME_witness :
  written (print_structure Demo.cell Demo.atoms [1] 7 "MFI" "merw" "out" Demo.w0)
    (file_name 7 "MFI" "merw" "out") =
  Some (title_block "MFI" +:+ date_line (local_date Demo.w0) +:+
        ("_audit_author_name '" +:+ "alice" +:+ "'" +:+ nl +:+ nl) +:+
        cell_and_loop (render_fixed 3) Demo.cell +:+
        concat_rows (atom_rows (render_fixed 3) [1] Demo.atoms)).
Proof.
  apply (USER_wins_over_USERNAME
           Demo.cell Demo.atoms [1] 7 "MFI" "merw" "out" Demo.w0 "alice");
    [left; reflexivity | reflexivity | reflexivity].
Defined.

Lemma counters_at_the_end_witness :
  2 = si_count (take (Z.to_nat (Natoms Demo.cell5)) Demo.atoms5) - 1
  /\ -1 <= 2 < Z.max 0 (Natoms Demo.cell5)
  /\ 1 <= 3 <= 2 + 2
  /\ 3 <= 1 + Z.of_nat (length [2; 0; 2])
  /\ formatted
       (write (cif_text (render_fixed 3) Demo.cell5 Demo.atoms5 [2; 0; 2] "MFI"
                 "2024-01-15" "alice") fout_ready).
Proof.
  apply (counters_at_the_end Demo.cell5 Demo.atoms5 [2; 0; 2] "MFI" "2024-01-15"
           "alice" 2 3).
  rewrite (write_cif_text Demo.cell5 Demo.atoms5 [2; 0; 2] "MFI" "2024-01-15"
             "alice" eq_refl).
  vm_compute. reflexivity.
Defined.

Lemma smaller_Natoms_gives_the_first_rows_witness :
  let rows := atom_rows (render_fixed 3) [0; 2] (take 5 Demo.atoms5) in
  length rows = 5%nat
  /\ written (print_structure (set_Natoms Demo.cell5 (Z.of_nat 5)) Demo.atoms5
                [0; 2] 7 "MFI" "merw" "out" Demo.w0)
       (file_name 7 "MFI" "merw" "out") =
     Some (header (render_fixed 3) Demo.cell5 "MFI" (local_date Demo.w0)
             (lookup_username Demo.w0)
           +:+ concat_rows rows)
  /\ written (print_structure (set_Natoms Demo.cell5 (Z.of_nat 3)) Demo.atoms5
                [0; 2] 7 "MFI" "merw" "out" Demo.w0)
       (file_name 7 "MFI" "merw" "out") =
     Some (header (render_fixed 3) Demo.cell5 "MFI" (local_date Demo.w0)
             (lookup_username Demo.w0)
           +:+ concat_rows (take 3 rows)).
Proof.
  apply (smaller_Natoms_gives_the_first_rows
           Demo.cell5 Demo.atoms5 [0; 2] 7 "MFI" "merw" "out" Demo.w0 3 5);
    [reflexivity | cbn; lia].
Defined.

Lemma Al_row_is_relabelled_row_iff_witness :
  put_Al_row 1 (Atom "Si" "T2" 0.7 0.8 0.9 1.2) fout_ready
  = put_own_row (as_aluminium 1 (Atom "Si" "T2" 0.7 0.8 0.9 1.2)) fout_ready
  <-> String.length (render_fixed 3 (x (Atom "Si" "T2" 0.7 0.8 0.9 1.2))) = 5%nat.
Proof.
  apply (Al_row_is_relabelled_row_iff 1 (Atom "Si" "T2" 0.7 0.8 0.9 1.2)
           fout_ready).
  repeat split.
Defined.

Lemma Al_numbers_increase_witness :
  let number (k : nat) :=
    1 + Z.of_nat (length (filter (fun v => Z.of_nat v ∈ [2; 0])
                            (seq 0 (Z.to_nat (si_before Demo.atoms5 k))))) in
  let rows := atom_rows (render_fixed 3) [2; 0] Demo.atoms5 in
    written (print_structure Demo.cell5 Demo.atoms5 [2; 0] 7 "MFI" "merw" "out"
               Demo.w0)
      (file_name 7 "MFI" "merw" "out") =
    Some (header (render_fixed 3) Demo.cell5 "MFI" (local_date Demo.w0)
            (lookup_username Demo.w0)
          +:+ concat_rows rows)
    /\ rows !! 0%nat =
       Some (Al_row (render_fixed 3) (number 0%nat)
               (Atom "Si" "T1" 0.1 0.2 0.3 1.2))
    /\ rows !! 3%nat =
       Some (Al_row (render_fixed 3) (number 3%nat)
               (Atom "Si" "T3" 0.25 0.75 0.5 1.2))
    /\ 1 <= number 0%nat < number 3%nat
    /\ "Al" +:+ to_string (number 0%nat) <> "Al" +:+ to_string (number 3%nat).
Proof.
  apply (Al_numbers_increase Demo.cell5 Demo.atoms5 [2; 0] 7 "MFI" "merw" "out"
           Demo.w0 0 3 (Atom "Si" "T1" 0.1 0.2 0.3 1.2)
           (Atom "Si" "T3" 0.25 0.75 0.5 1.2));
    try reflexivity.
  - lia.
  - apply list_elem_of_further, list_elem_of_here.
  - apply list_elem_of_here.
Defined.
